(** * The invoices dashboard: server actions, form schema and page boundary

    A shallow embedding of the TypeScript of [LEARNING/dashboard-app.md]:
    the server actions of [/app/lib/actions.ts] ([createInvoice],
    [updateInvoice], [deleteInvoice]), the form schema they validate with,
    and the two pages that read request parameters
    ([/app/dashboard/invoices/page.tsx] and
    [/app/dashboard/invoices/[id]/edit/page.tsx]).

    JavaScript numbers are IEEE 754 binary64 values, so they are embedded
    as the kernel's primitive floats; strings are byte strings holding
    UTF-8. *)

From Stdlib Require Import ZArith Floats List String Ascii Bool Lia.
From Stdlib Require Import Permutation Sorted.
Import ListNotations.

Local Open Scope string_scope.
Local Open Scope Z_scope.

(** ** The JavaScript values and built-ins the code relies on *)

Module JS.

(** The values that reach the code: what [FormData.get] returns (a string,
    a [File] or [null]), what an optional property reads as ([undefined]),
    and numbers. *)
Inductive Value : Type :=
| VUndefined
| VNull
| VString (s : string)
| VNumber (n : float)
| VFile (name : string).

(** *** White space of a numeric string (StrWhiteSpaceChar)

    TAB, LF, VT, FF, CR, SP, and beyond ASCII U+00A0, U+1680,
    U+2000..U+200A, U+2028, U+2029, U+202F, U+205F, U+3000 and U+FEFF, in
    their UTF-8 encodings. *)

Definition code (c : ascii) : Z := Z.of_N (N_of_ascii c).

Definition ws1 (c : ascii) : bool :=
  let n := code c in ((9 <=? n) && (n <=? 13)) || (n =? 32).

Definition ws2 (c1 c2 : ascii) : bool :=
  (code c1 =? 194) && (code c2 =? 160).

Definition ws3 (c1 c2 c3 : ascii) : bool :=
  let a := code c1 in
  let b := code c2 in
  let c := code c3 in
  ((a =? 225) && (b =? 154) && (c =? 128))
  || ((a =? 226) && (b =? 128)
      && (((128 <=? c) && (c <=? 138)) || (c =? 168) || (c =? 169) || (c =? 175)))
  || ((a =? 226) && (b =? 129) && (c =? 159))
  || ((a =? 227) && (b =? 128) && (c =? 128))
  || ((a =? 239) && (b =? 187) && (c =? 191)).

Fixpoint skip_ws (s : string) : string :=
  match s with
  | String c1 r1 =>
      if ws1 c1 then skip_ws r1
      else match r1 with
           | String c2 r2 =>
               if ws2 c1 c2 then skip_ws r2
               else match r2 with
                    | String c3 r3 => if ws3 c1 c2 c3 then skip_ws r3 else s
                    | EmptyString => s
                    end
           | EmptyString => s
           end
  | EmptyString => s
  end.

(** *** Digits *)

(** The value of [c] as a digit of the given [base] (2, 8, 10 or 16). *)
Definition digit_val (base : Z) (c : ascii) : option Z :=
  let n := code c in
  let v :=
    if (48 <=? n) && (n <=? 57) then n - 48
    else if (97 <=? n) && (n <=? 102) then n - 87
    else if (65 <=? n) && (n <=? 70) then n - 55
    else 16 in
  if v <? base then Some v else None.

(** Reads the longest run of digits: the number read so far, how many
    digits were read, and what follows them. *)
Fixpoint scan_digits (base acc : Z) (count : nat) (s : string)
  : Z * nat * string :=
  match s with
  | String c r =>
      match digit_val base c with
      | Some d => scan_digits base (acc * base + d) (S count) r
      | None => (acc, count, s)
      end
  | EmptyString => (acc, count, s)
  end.

(** *** Numbers *)

Definition NaN : float := PrimFloat.nan.
Definition signed_zero (neg : bool) : float :=
  if neg then PrimFloat.neg_zero else PrimFloat.zero.
Definition signed_infinity (neg : bool) : float :=
  if neg then PrimFloat.neg_infinity else PrimFloat.infinity.

(** The Number value of the decimal [(-1)^neg * m * 10^e], [0 <= m]: the
    binary64 value nearest to it, ties to even. *)
Definition decimal_to_number (neg : bool) (m e : Z) : float :=
  match m with
  | Zpos p =>
      if 0 <=? e
      then let n := m * 10 ^ e in
           SF2Prim (binary_normalize prec emax (if neg then - n else n) 0 neg)
      else SF2Prim (SFdiv prec emax
                      (S754_finite neg p 0)
                      (S754_finite false (Z.to_pos (10 ^ (- e))) 0))
  | _ => signed_zero neg
  end.

(** [prefix p s]: what follows [p] in [s], when [s] starts with [p]. *)
Fixpoint prefix (p s : string) : option string :=
  match p, s with
  | EmptyString, _ => Some s
  | String a p', String b s' => if Ascii.eqb a b then prefix p' s' else None
  | String _ _, EmptyString => None
  end.

(** NonDecimalIntegerLiteral: [0x], [0o] or [0b] (either case) and at
    least one digit of that base. *)
Definition radix_of (c : ascii) : option Z :=
  let n := code c in
  if (n =? 120) || (n =? 88) then Some 16
  else if (n =? 111) || (n =? 79) then Some 8
  else if (n =? 98) || (n =? 66) then Some 2
  else None.

Definition parse_non_decimal (s : string) : option (float * string) :=
  match s with
  | String z (String x r) =>
      if code z =? 48 then
        match radix_of x with
        | Some base =>
            match scan_digits base 0 0 r with
            | (_, O, _) => None
            | (n, _, rest) => Some (decimal_to_number false n 0, rest)
            end
        | None => None
        end
      else None
  | _ => None
  end.

(** An optional sign: whether it is [-], and what follows. *)
Definition parse_sign (s : string) : bool * string :=
  match s with
  | String c r =>
      if code c =? 45 then (true, r)
      else if code c =? 43 then (false, r)
      else (false, s)
  | EmptyString => (false, s)
  end.

(** ExponentPart, when one is there: [e] or [E], an optional sign and at
    least one digit. Without it the exponent is 0 and nothing is read. *)
Definition parse_exponent (s : string) : Z * string :=
  match s with
  | String c r =>
      if (code c =? 101) || (code c =? 69) then
        let '(neg, r1) := parse_sign r in
        match scan_digits 10 0 0 r1 with
        | (_, O, _) => (0, s)
        | (n, _, rest) => (if neg then - n else n, rest)
        end
      else (0, s)
  | EmptyString => (0, s)
  end.

(** StrUnsignedDecimalLiteral without [Infinity]: digits, an optional
    fraction, an optional exponent; at least one digit before or after the
    point. *)
Definition parse_unsigned_decimal (neg : bool) (s : string)
  : option (float * string) :=
  let '(ip, n_ip, r) := scan_digits 10 0 0 s in
  let '(m, n_fp, r1) :=
    match r with
    | String c r' =>
        if code c =? 46 then scan_digits 10 ip 0 r' else (ip, O, r)
    | EmptyString => (ip, O, r)
    end in
  match n_ip, n_fp with
  | O, O => None
  | _, _ =>
      let '(e, rest) := parse_exponent r1 in
      Some (decimal_to_number neg m (e - Z.of_nat n_fp), rest)
  end.

(** StrDecimalLiteral: an optional sign, then [Infinity] or a decimal. *)
Definition parse_decimal (s : string) : option (float * string) :=
  let '(neg, r) := parse_sign s in
  match prefix "Infinity" r with
  | Some rest => Some (signed_infinity neg, rest)
  | None => parse_unsigned_decimal neg r
  end.

(** StringToNumber: white space around one numeric literal; the empty and
    the all-blank string are [+0]; everything else is [NaN]. *)
Definition StringToNumber (s : string) : float :=
  let s1 := skip_ws s in
  match s1 with
  | EmptyString => PrimFloat.zero
  | _ =>
      let parsed :=
        match parse_non_decimal s1 with
        | Some r => Some r
        | None => parse_decimal s1
        end in
      match parsed with
      | Some (n, rest) =>
          match skip_ws rest with
          | EmptyString => n
          | _ => NaN
          end
      | None => NaN
      end
  end.

(** [Number(v)]. A [File] is an object whose primitive is the string
    ["[object File]"], which is no numeric literal. *)
Definition Number (v : Value) : float :=
  match v with
  | VUndefined => NaN
  | VNull => PrimFloat.zero
  | VString s => StringToNumber s
  | VNumber n => n
  | VFile _ => NaN
  end.

(** ToBoolean: [undefined], [null], the empty string, [NaN] and both
    zeros are falsy. *)
Definition truthy (v : Value) : bool :=
  match v with
  | VUndefined | VNull => false
  | VString s => negb (String.eqb s "")
  | VNumber n => negb (PrimFloat.is_nan n || PrimFloat.is_zero n)
  | VFile _ => true
  end.

(** [a || b] *)
Definition logical_or (a b : Value) : Value := if truthy a then a else b.

(** *** Strings *)

(** [s.split(sep)] for a separator of one character. *)
Fixpoint split (sep : ascii) (s : string) : list string :=
  match s with
  | EmptyString => [""]
  | String c r =>
      if Ascii.eqb c sep then "" :: split sep r
      else match split sep r with
           | h :: t => String c h :: t
           | [] => [String c ""]
           end
  end.

(** *** Dates

    A [Date] is its time value: milliseconds since 1970-01-01T00:00:00Z. *)

Definition msPerDay : Z := 86400000.

(** Year, month (1..12) and day of the month (1..31) of the day numbered
    [days] from 1970-01-01, in the proleptic Gregorian calendar: what
    YearFromTime, MonthFromTime (plus one) and DateFromTime give. The
    computation counts from 0000-03-01 in eras of 400 years. *)
Definition civil_from_days (days : Z) : Z * Z * Z :=
  let z := days + 719468 in
  let era := z / 146097 in
  let doe := z mod 146097 in
  let yoe := (doe - doe / 1460 + doe / 36524 - doe / 146096) / 365 in
  let doy := doe - (365 * yoe + yoe / 4 - yoe / 100) in
  let mp := (5 * doy + 2) / 153 in
  let d := doy - (153 * mp + 2) / 5 + 1 in
  let m := if mp <? 10 then mp + 3 else mp - 9 in
  let y := yoe + era * 400 + (if m <=? 2 then 1 else 0) in
  (y, m, d).

Definition digit_char (n : Z) : ascii := ascii_of_N (Z.to_N (48 + n)).

(** The [w] lowest decimal digits of [n], most significant first. *)
Fixpoint digits_fixed (w : nat) (n : Z) : string :=
  match w with
  | O => ""
  | S w' => digits_fixed w' (n / 10) ++ String (digit_char (n mod 10)) ""
  end.

(** The year of an ISO timestamp: four digits, or a sign and six digits
    for a year outside 0..9999. *)
Definition iso_year (y : Z) : string :=
  if (0 <=? y) && (y <=? 9999) then digits_fixed 4 y
  else (if y <? 0 then "-" else "+") ++ digits_fixed 6 (Z.abs y).

Definition iso_date (t : Z) : string :=
  let '(y, m, d) := civil_from_days (t / msPerDay) in
  iso_year y ++ "-" ++ digits_fixed 2 m ++ "-" ++ digits_fixed 2 d.

Definition iso_time (t : Z) : string :=
  let ms := t mod msPerDay in
  digits_fixed 2 (ms / 3600000)
    ++ ":" ++ digits_fixed 2 (ms / 60000 mod 60)
    ++ ":" ++ digits_fixed 2 (ms / 1000 mod 60)
    ++ "." ++ digits_fixed 3 (ms mod 1000) ++ "Z".

(** [toISOString()]: [YYYY-MM-DDTHH:mm:ss.sssZ], in UTC. *)
Definition toISOString (t : Z) : string :=
  iso_date t ++ "T" ++ iso_time t.

(** *** Form data

    A [FormData] is an ordered list of entries; [get] returns the first
    value of the name, or [null]. *)

Inductive FormDataEntryValue : Type :=
| EntryString (s : string)
| EntryFile (name : string).

Definition FormData : Type := list (string * FormDataEntryValue).

Definition entry_value (e : FormDataEntryValue) : Value :=
  match e with
  | EntryString s => VString s
  | EntryFile f => VFile f
  end.

Fixpoint get (formData : FormData) (name : string) : Value :=
  match formData with
  | [] => VNull
  | (k, e) :: rest =>
      if String.eqb k name then entry_value e else get rest name
  end.

(** *** Plain objects

    An object literal is the list of its properties; reading a property
    that is not there gives [undefined]. *)

Definition Obj : Type := list (string * Value).

Fixpoint prop (o : Obj) (key : string) : Value :=
  match o with
  | [] => VUndefined
  | (k, v) :: rest => if String.eqb k key then v else prop rest key
  end.

End JS.

(** ** The schema library

    The three schema constructors the code uses and the check of an object
    schema. [allow_infinite] is the one point where releases of the
    library differ on this code: whether [z.coerce.number()] accepts
    [Infinity] and [-Infinity]. *)

Module Zod.
Import JS.

(** [z.string()], [z.coerce.number()], [z.enum([...])] *)
Inductive ZodType : Type :=
| ZodString
| ZodCoerceNumber
| ZodEnum (values : list string).

(** [z.object({...})]: the fields in the order they are written. *)
Definition ZodObject : Type := list (string * ZodType).

Inductive IssueCode : Type :=
| invalid_type
| invalid_enum_value.

(** One issue of a failed check: the field it is about and its kind. *)
Record ZodIssue : Type := { path : string; code : IssueCode }.

Fixpoint mem (s : string) (l : list string) : bool :=
  match l with
  | [] => false
  | x :: rest => String.eqb s x || mem s rest
  end.

Section Check.
Variable allow_infinite : bool.

(** A number passes [z.coerce.number()] unless it is [NaN] (or, when
    [allow_infinite] is off, infinite). *)
Definition number_ok (n : float) : bool :=
  negb (PrimFloat.is_nan n) && (allow_infinite || negb (PrimFloat.is_infinity n)).

(** The check of one value: the parsed value, or the kind of issue. *)
Definition check_value (t : ZodType) (v : Value) : Value + IssueCode :=
  match t with
  | ZodString =>
      match v with
      | VString s => inl (VString s)
      | _ => inr invalid_type
      end
  | ZodCoerceNumber =>
      let n := Number v in
      if number_ok n then inl (VNumber n) else inr invalid_type
  | ZodEnum values =>
      match v with
      | VString s => if mem s values then inl (VString s) else inr invalid_enum_value
      | _ => inr invalid_type
      end
  end.

(** Every field of the schema is read from the input and checked; unknown
    properties of the input are dropped; the issues of all fields are
    collected. *)
Fixpoint check_fields (shape : ZodObject) (input : Obj) : Obj * list ZodIssue :=
  match shape with
  | [] => ([], [])
  | (k, t) :: rest =>
      let '(out, issues) := check_fields rest input in
      match check_value t (prop input k) with
      | inl v => ((k, v) :: out, issues)
      | inr c => (out, {| path := k; code := c |} :: issues)
      end
  end.

Definition check (shape : ZodObject) (input : Obj) : Obj + list ZodIssue :=
  match check_fields shape input with
  | (out, []) => inl out
  | (_, issues) => inr issues
  end.

End Check.

(** [schema.omit({k: true, ...})] *)
Definition omit (mask : list string) (shape : ZodObject) : ZodObject :=
  filter (fun field => negb (mem (fst field) mask)) shape.

End Zod.

(** ** [/app/lib/definitions.ts] *)

Module Definitions.

(** [amount] is what the code passes to the database for the column; the
    column's own type is declared outside the source. *)
Record Invoice : Type := {
  id : string;
  customer_id : string;
  amount : float;
  status : string;
  date : string;
}.

End Definitions.

(** ** What runs an action: exceptions, the world, the framework calls *)

Module Runtime.
Import JS.

Inductive Exn : Type :=
| ZodError (issues : list Zod.ZodIssue)
| PostgresError (message : string)
| Error (message : string)
| NEXT_REDIRECT (url : string)
| NEXT_NOT_FOUND.

(** The state an action reads and changes. [clock], [db_fault] and
    [new_id] are the environment's part: the time [new Date()] reads,
    whether the database rejects the statement it is sent (and with which
    message), and the identifier it gives the next inserted row. *)
Record World : Type := {
  invoices : list Definitions.Invoice;
  clock : Z;
  db_fault : option string;
  new_id : nat -> string;
  inserted : nat;
  console : list Exn;
  revalidated : list string;
}.

Inductive Result (A : Type) : Type :=
| Ok (a : A)
| Throw (e : Exn).
Arguments Ok {A} a.
Arguments Throw {A} e.

(** An action runs in a world and returns or throws; what it did to the
    world before throwing stays done. *)
Definition Action (A : Type) : Type := World -> Result A * World.

Definition ret {A} (a : A) : Action A := fun w => (Ok a, w).

Definition bind {A B} (c : Action A) (k : A -> Action B) : Action B :=
  fun w =>
    match c w with
    | (Ok a, w') => k a w'
    | (Throw e, w') => (Throw e, w')
    end.

Definition throw {A} (e : Exn) : Action A := fun w => (Throw e, w).

(** [try { body } catch (error) { handler }] *)
Definition try_catch {A} (body : Action A) (handler : Exn -> Action A) : Action A :=
  fun w =>
    match body w with
    | (Ok a, w') => (Ok a, w')
    | (Throw e, w') => handler e w'
    end.

Declare Scope action_scope.
Delimit Scope action_scope with action.
Notation "x <- c ;; k" := (bind c (fun x => k))
  (at level 61, c at next level, right associativity) : action_scope.
Notation "c ;; k" := (bind c (fun _ => k))
  (at level 61, right associativity) : action_scope.

Definition with_invoices (rows : list Definitions.Invoice) (w : World) : World :=
  {| invoices := rows; clock := clock w; db_fault := db_fault w;
     new_id := new_id w; inserted := inserted w;
     console := console w; revalidated := revalidated w |}.

(** [console.error(error)] *)
Definition console_error (error : Exn) : Action unit :=
  fun w =>
    (Ok tt,
     {| invoices := invoices w; clock := clock w; db_fault := db_fault w;
        new_id := new_id w; inserted := inserted w;
        console := console w ++ [error]; revalidated := revalidated w |}).

(** [revalidatePath(path)] *)
Definition revalidatePath (path : string) : Action unit :=
  fun w =>
    (Ok tt,
     {| invoices := invoices w; clock := clock w; db_fault := db_fault w;
        new_id := new_id w; inserted := inserted w;
        console := console w; revalidated := revalidated w ++ [path] |}).

(** [redirect(url)] works by throwing. *)
Definition redirect {A} (url : string) : Action A := throw (NEXT_REDIRECT url).

(** [notFound()] works by throwing. *)
Definition notFound {A} : Action A := throw NEXT_NOT_FOUND.

(** [new Date()] *)
Definition new_Date : Action Z := fun w => (Ok (clock w), w).

(** The three statements the actions send. *)
Inductive Statement : Type :=
| INSERT_INTO_invoices (customer_id : string) (amount : float) (status date : string)
| UPDATE_invoices (customer_id : string) (amount : float) (status : string) (id : string)
| DELETE_FROM_invoices (id : string).

Definition set_row (customer_id : string) (amount : float) (status : string)
    (id : string) (r : Definitions.Invoice) : Definitions.Invoice :=
  if String.eqb (Definitions.id r) id
  then {| Definitions.id := Definitions.id r;
          Definitions.customer_id := customer_id;
          Definitions.amount := amount;
          Definitions.status := status;
          Definitions.date := Definitions.date r |}
  else r.

(** What a statement does to the table when the database carries it out. *)
Definition execute (stmt : Statement) (w : World) : World :=
  match stmt with
  | INSERT_INTO_invoices customer_id amount status date =>
      {| invoices :=
           invoices w ++
             [{| Definitions.id := new_id w (inserted w);
                 Definitions.customer_id := customer_id;
                 Definitions.amount := amount;
                 Definitions.status := status;
                 Definitions.date := date |}];
         clock := clock w; db_fault := db_fault w;
         new_id := new_id w; inserted := S (inserted w);
         console := console w; revalidated := revalidated w |}
  | UPDATE_invoices customer_id amount status id =>
      with_invoices (map (set_row customer_id amount status id) (invoices w)) w
  | DELETE_FROM_invoices id =>
      with_invoices
        (filter (fun r => negb (String.eqb (Definitions.id r) id)) (invoices w)) w
  end.

(** [await sql`...`]: the statement is carried out, or the database
    rejects it and the call throws, the table untouched. *)
Definition sql (stmt : Statement) : Action unit :=
  fun w =>
    match db_fault w with
    | Some message => (Throw (PostgresError message), w)
    | None => (Ok tt, execute stmt w)
    end.

End Runtime.

(** ** [/app/lib/actions.ts] *)

Module Actions.
Import JS Runtime.
Local Open Scope action_scope.

Definition FormSchema : Zod.ZodObject :=
  [ ("id", Zod.ZodString);
    ("customerId", Zod.ZodString);
    ("amount", Zod.ZodCoerceNumber);
    ("status", Zod.ZodEnum ["pending"; "paid"]);
    ("date", Zod.ZodString) ].

Definition CreateInvoice : Zod.ZodObject := Zod.omit ["id"; "date"] FormSchema.

Definition UpdateInvoice : Zod.ZodObject := Zod.omit ["id"; "date"] FormSchema.

Section WithZod.
Variable allow_infinite : bool.

(** [schema.parse(input)]: the parsed object, or a thrown [ZodError]. *)
Definition parse (schema : Zod.ZodObject) (input : Obj) : Action Obj :=
  match Zod.check allow_infinite schema input with
  | inl data => ret data
  | inr issues => throw (ZodError issues)
  end.

(** The typed reading of a parsed property ([customerId : string],
    [amount : number], [status : 'pending' | 'paid']). *)
Definition string_of (v : Value) : string :=
  match v with VString s => s | _ => "" end.

Definition number_of (v : Value) : float :=
  match v with VNumber n => n | _ => NaN end.

(** The object both actions hand to the schema. *)
Definition raw_form (formData : FormData) : Obj :=
  [ ("customerId", get formData "customerId");
    ("amount", get formData "amount");
    ("status", get formData "status") ].

(** In [createInvoice], [split('T')[0]] reads element 0 of an array that
    is never empty; the default of [nth] stands for the [undefined] of an
    index that is not there. *)
Definition createInvoice (formData : FormData) : Action unit :=
  data <- parse CreateInvoice (raw_form formData) ;;
  let customerId := string_of (prop data "customerId") in
  let amount := number_of (prop data "amount") in
  let status := string_of (prop data "status") in
  let amountInCents := (amount * 100)%float in
  now <- new_Date ;;
  let date := nth 0 (split "T" (toISOString now)) "" in
  try_catch
    (sql (INSERT_INTO_invoices customerId amountInCents status date))
    (fun error => console_error error) ;;
  revalidatePath "/dashboard/invoices" ;;
  redirect "/dashboard/invoices".

Definition updateInvoice (id : string) (formData : FormData) : Action unit :=
  data <- parse UpdateInvoice (raw_form formData) ;;
  let customerId := string_of (prop data "customerId") in
  let amount := number_of (prop data "amount") in
  let status := string_of (prop data "status") in
  let amountInCents := (amount * 100)%float in
  try_catch
    (sql (UPDATE_invoices customerId amountInCents status id))
    (fun error => console_error error) ;;
  revalidatePath "/dashboard/invoices" ;;
  redirect "/dashboard/invoices".

End WithZod.

Definition deleteInvoice (id : string) : Action unit :=
  sql (DELETE_FROM_invoices id) ;;
  revalidatePath "/dashboard/invoices".

End Actions.

(** ** [/app/dashboard/invoices/page.tsx] *)

Module InvoicesPage.
Import JS.

Record SearchParams : Type := {
  query : option string;
  page : option string;
}.

Record Props : Type := { searchParams : option SearchParams }.

(** [searchParams?.field] *)
Definition optional (sp : option SearchParams) (field : SearchParams -> option string)
  : Value :=
  match sp with
  | None => VUndefined
  | Some p =>
      match field p with
      | None => VUndefined
      | Some s => VString s
      end
  end.

(** What the page hands to [<Table query=... currentPage=... />]. *)
Record TableProps : Type := {
  table_query : Value;
  table_currentPage : Value;
}.

Definition Page (props : Props) : TableProps :=
  let searchParams := searchParams props in
  let query := logical_or (optional searchParams query) (VString "") in
  let currentPage :=
    logical_or (VNumber (Number (optional searchParams page))) (VNumber 1%float) in
  {| table_query := query; table_currentPage := currentPage |}.

End InvoicesPage.

(** ** [/app/dashboard/invoices/[id]/edit/page.tsx], with its
    [not-found.tsx] and the [error.tsx] of the invoices segment *)

Module EditPage.
Import JS Runtime.
Local Open Scope action_scope.

(** [await Promise.all([a, b])]: both calls are made; the result is the
    pair of their values, or the rejection of the first that rejects. *)
Definition Promise_all {A B} (a : Action A) (b : Action B) : Action (A * B) :=
  fun w =>
    let '(ra, w1) := a w in
    let '(rb, w2) := b w1 in
    (match ra, rb with
     | Ok x, Ok y => Ok (x, y)
     | Throw e, _ => Throw e
     | Ok _, Throw e => Throw e
     end, w2).

Section WithData.
(** The two queries of [/app/lib/data.ts] the page calls are not part of
    the source; the page is modelled over any two of them.
    [fetchInvoiceById] resolves to [undefined] ([None]) when it finds no
    invoice. *)
Variables InvoiceForm CustomerField : Type.
Variable fetchInvoiceById : string -> Action (option InvoiceForm).
Variable fetchCustomers : Action (list CustomerField).

(** What the segment shows: the page's form, the [NotFound] component of
    [not-found.tsx], or the [Error] component of [error.tsx]. *)
Inductive Screen : Type :=
| Form (invoice : InvoiceForm) (customers : list CustomerField)
| NotFound
| Error (error : Exn).

Definition Page (id : string) : Action Screen :=
  r <- Promise_all (fetchInvoiceById id) fetchCustomers ;;
  let '(invoice, customers) := r in
  match invoice with
  | None => notFound
  | Some invoice => ret (Form invoice customers)
  end.

(** The segment's boundaries: a thrown not-found signal shows
    [not-found.tsx], which takes precedence over [error.tsx]; any other
    uncaught exception shows [error.tsx]. *)
Definition render (id : string) (w : World) : Screen :=
  match fst (Page id w) with
  | Ok screen => screen
  | Throw NEXT_NOT_FOUND => NotFound
  | Throw e => Error e
  end.

End WithData.

Arguments Form {InvoiceForm CustomerField} invoice customers.
Arguments NotFound {InvoiceForm CustomerField}.
Arguments Error {InvoiceForm CustomerField} error.
Arguments Page {InvoiceForm CustomerField} fetchInvoiceById fetchCustomers id.
Arguments render {InvoiceForm CustomerField} fetchInvoiceById fetchCustomers id w.

End EditPage.

(** ** The queries of [/app/lib/data.ts] behind the invoices table

    Their code is not part of the source; only their callers and a
    description are. *)

Module Data.

(** Modelled from the spec: a customer of the absent customers table
    (identifier, name, email, avatar reference). *)
Record Customer : Type := {
  customer_id : string;
  name : string;
  email : string;
  image_url : string;
}.

(** Modelled from the spec: a row of the absent queries, an invoice joined
    with its customer's name, email and avatar. *)
Record InvoiceRow : Type := {
  id : string;
  customer_name : string;
  customer_email : string;
  customer_image_url : string;
  date : string;
  amount : float;
  status : string;
}.

(** Modelled from the spec: the fixed page size (6) of the absent
    [fetchFilteredInvoices]. *)
Definition page_size : nat := 6.

Definition lower (c : ascii) : ascii :=
  let n := N_of_ascii c in
  if ((65 <=? n) && (n <=? 90))%N then ascii_of_N (n + 32) else c.

Fixpoint lowercase (s : string) : string :=
  match s with
  | EmptyString => EmptyString
  | String c r => String (lower c) (lowercase r)
  end.

Fixpoint contains (s sub : string) : bool :=
  match JS.prefix sub s with
  | Some _ => true
  | None =>
      match s with
      | EmptyString => false
      | String _ r => contains r sub
      end
  end.

(** Modelled from the spec: the case-insensitive substring match of the
    absent queries. *)
Definition ilike (text term : string) : bool :=
  contains (lowercase text) (lowercase term).

Section Queries.
(** How the database writes an amount as text. *)
Variable amount_text : float -> string.
Variable invoices : list Definitions.Invoice.
Variable customers : list Customer.

(** Modelled from the spec: invoices joined with customer name, email and
    avatar. *)
Definition joined : list InvoiceRow :=
  flat_map
    (fun i =>
       map (fun c =>
              {| id := Definitions.id i;
                 customer_name := name c;
                 customer_email := email c;
                 customer_image_url := image_url c;
                 date := Definitions.date i;
                 amount := Definitions.amount i;
                 status := Definitions.status i |})
           (filter (fun c => String.eqb (customer_id c) (Definitions.customer_id i))
                   customers))
    invoices.

(** Modelled from the spec: the filter of the absent queries, a
    case-insensitive substring match across name, email, amount, date and
    status. *)
Definition matches (query : string) (r : InvoiceRow) : bool :=
  ilike (customer_name r) query
  || ilike (customer_email r) query
  || ilike (amount_text (amount r)) query
  || ilike (date r) query
  || ilike (status r) query.

Fixpoint insert_by_date (r : InvoiceRow) (l : list InvoiceRow)
  : list InvoiceRow :=
  match l with
  | [] => [r]
  | h :: t =>
      if String.leb (date h) (date r) then r :: h :: t
      else h :: insert_by_date r t
  end.

(** Modelled from the spec: the order of the absent
    [fetchFilteredInvoices], by date descending. *)
Definition order_by_date_desc (l : list InvoiceRow) : list InvoiceRow :=
  fold_right insert_by_date [] l.

(** Modelled from the spec: the absent [fetchFilteredInvoices], which
    takes a search term and a 1-based page number and returns that page
    of the matching invoices, at most the page size of them. *)
Definition fetchFilteredInvoices (query : string) (currentPage : positive)
  : list InvoiceRow :=
  let offset := ((Pos.to_nat currentPage - 1) * page_size)%nat in
  firstn page_size
    (skipn offset (order_by_date_desc (filter (matches query) joined))).

(** Modelled from the spec: the absent [fetchInvoicesPages], the ceiling
    of the match count divided by the page size. *)
Definition fetchInvoicesPages (query : string) : nat :=
  let count := List.length (filter (matches query) joined) in
  ((count + (page_size - 1)) / page_size)%nat.

End Queries.

End Data.

(** ** Vocabulary of the statements, and the inputs of the examples *)

Module Spec.
Import JS Runtime.

(** The schema accepts the input. *)
Definition accepts (allow_infinite : bool) (schema : Zod.ZodObject) (input : Obj)
  : bool :=
  match Zod.check allow_infinite schema input with
  | inl _ => true
  | inr _ => false
  end.

(** One field of the schema accepts what the input holds for it. *)
Definition field_ok (allow_infinite : bool) (input : Obj)
    (field : string * Zod.ZodType) : bool :=
  match Zod.check_value allow_infinite (snd field) (prop input (fst field)) with
  | inl _ => true
  | inr _ => false
  end.

(** The form of the invoice pages: a customer, an amount, a status. *)
Definition form (customerId amount status : string) : FormData :=
  [ ("customerId", EntryString customerId);
    ("amount", EntryString amount);
    ("status", EntryString status) ].

(** A form that also carries an identifier and a date of its own. *)
Definition dated_form : FormData :=
  (("id", EntryString "x") :: ("date", EntryString "1999-01-01")
     :: form "c1" "12.34" "paid")%list.

(** A world with the given table and database behaviour, at
    2026-11-02T22:48:45.123Z. *)
Definition world (rows : list Definitions.Invoice) (fault : option string) : World :=
  {| invoices := rows;
     clock := 1793659725123;
     db_fault := fault;
     new_id := fun n => String (ascii_of_nat (97 + n)) "";
     inserted := 0;
     console := [];
     revalidated := [] |}.

(** The same world with the database carrying out what it is sent. *)
Definition without_fault (w : World) : World :=
  {| invoices := invoices w; clock := clock w; db_fault := None;
     new_id := new_id w; inserted := inserted w;
     console := console w; revalidated := revalidated w |}.

Definition invoice (id : string) (cents : float) : Definitions.Invoice :=
  {| Definitions.id := id;
     Definitions.customer_id := "c1";
     Definitions.amount := cents;
     Definitions.status := "pending";
     Definitions.date := "2026-10-31" |}.

(** What the schema asks of an invoice input, as the code has it. *)
Definition valid_input (allow_infinite : bool) (input : Obj) : Prop :=
  (exists c, prop input "customerId" = VString c)
  /\ Zod.number_ok allow_infinite (Number (prop input "amount")) = true
  /\ (prop input "status" = VString "pending"
      \/ prop input "status" = VString "paid").

(** The amount the actions compute from the form: [amount * 100]. *)
Definition cents_of (formData : FormData) : float :=
  (Number (get formData "amount") * 100)%float.

(** The date [createInvoice] computes in a world. *)
Definition today (w : World) : string :=
  nth 0 (split "T" (toISOString (clock w))) "".

Definition is_digit (c : ascii) : bool :=
  (48 <=? code c) && (code c <=? 57).

Definition is_dash (c : ascii) : bool := code c =? 45.

(** The text has the form YYYY-MM-DD. *)
Definition YYYY_MM_DD (s : string) : bool :=
  match s with
  | String y1 (String y2 (String y3 (String y4 (String h1
      (String m1 (String m2 (String h2 (String d1 (String d2 EmptyString))))))))) =>
      is_digit y1 && is_digit y2 && is_digit y3 && is_digit y4 && is_dash h1
      && is_digit m1 && is_digit m2 && is_dash h2 && is_digit d1 && is_digit d2
  | _ => false
  end.

(** The calendar as the language defines it: the day number of the first
    day of a year, leap years, and the days of a year before each month
    (1..12). *)
Definition DayFromYear (y : Z) : Z :=
  365 * (y - 1970) + (y - 1969) / 4 - (y - 1901) / 100 + (y - 1601) / 400.

Definition InLeapYear (y : Z) : bool :=
  (y mod 4 =? 0) && (negb (y mod 100 =? 0) || (y mod 400 =? 0)).

Definition DaysBeforeMonth (y m : Z) : Z :=
  let l := if InLeapYear y then 1 else 0 in
  if m =? 1 then 0 else if m =? 2 then 31 else if m =? 3 then 59 + l
  else if m =? 4 then 90 + l else if m =? 5 then 120 + l
  else if m =? 6 then 151 + l else if m =? 7 then 181 + l
  else if m =? 8 then 212 + l else if m =? 9 then 243 + l
  else if m =? 10 then 273 + l else if m =? 11 then 304 + l
  else 334 + l.

(** Every character of the text satisfies [p]. *)
Fixpoint all_chars (p : ascii -> bool) (s : string) : bool :=
  match s with
  | EmptyString => true
  | String c r => p c && all_chars p r
  end.

(** The characters of the date of an ISO timestamp: digits, [-], [+]. *)
Definition date_char (c : ascii) : bool :=
  is_digit c || is_dash c || (code c =? 43).

(** A lookup by identifier in the invoices table, for the examples of the
    edit page. *)
Definition find_invoice (id : string) : Action (option Definitions.Invoice) :=
  fun w =>
    (Ok (find (fun r => String.eqb (Definitions.id r) id) (invoices w)), w).

Definition no_customers : Action (list string) := ret [].

(** The integer a number is, when it is one: the value of a finite
    binary64 number is its mantissa times a power of two. *)
Definition integer_value (x : float) : option Z :=
  match Prim2SF x with
  | S754_zero _ => Some 0
  | S754_finite s m e =>
      let sign n := if s then - n else n in
      if 0 <=? e then Some (sign (Z.pos m * 2 ^ e))
      else if Z.pos m mod 2 ^ (- e) =? 0 then Some (sign (Z.pos m / 2 ^ (- e)))
      else None
  | _ => None
  end.


End Spec.

(** ** [URLSearchParams]

    The ordered list of name and value pairs of a query string, with the
    methods the client components call and the urlencoded form the
    browser writes and reads. *)

Module URLSearchParams.
Import JS.

Definition URLSearchParams : Type := list (string * string).

(** [params.get(name)]: the first value of the name, or [null]. *)
Fixpoint get (params : URLSearchParams) (name : string) : Value :=
  match params with
  | [] => VNull
  | (k, v) :: rest => if String.eqb k name then VString v else get rest name
  end.

(** [params.delete(name)]: every pair of the name goes. *)
Definition delete (name : string) (params : URLSearchParams) : URLSearchParams :=
  filter (fun pair => negb (String.eqb (fst pair) name)) params.

(** [params.set(name, value)]: the first pair of the name takes the value
    and the other pairs of the name go; without one, the pair is
    appended. *)
Fixpoint set (name value : string) (params : URLSearchParams) : URLSearchParams :=
  match params with
  | [] => [(name, value)]
  | (k, v) :: rest =>
      if String.eqb k name then (k, value) :: delete name rest
      else (k, v) :: set name value rest
  end.

(** The bytes the urlencoded form leaves as they are: ASCII letters and
    digits, [*], [-], [.] and [_]. *)
Definition unreserved (c : ascii) : bool :=
  let n := code c in
  ((48 <=? n) && (n <=? 57)) || ((65 <=? n) && (n <=? 90))
  || ((97 <=? n) && (n <=? 122))
  || (n =? 42) || (n =? 45) || (n =? 46) || (n =? 95).

Definition hex_digit (n : Z) : ascii :=
  ascii_of_N (Z.to_N (if n <? 10 then 48 + n else 55 + n)).

(** A space is written [+], an unreserved byte as itself, any other byte
    as [%] and its two upper-case hexadecimal digits. *)
Definition encode_byte (c : ascii) : string :=
  if code c =? 32 then "+"
  else if unreserved c then String c ""
  else String "%" (String (hex_digit (code c / 16))
                     (String (hex_digit (code c mod 16)) "")).

Fixpoint encode (s : string) : string :=
  match s with
  | EmptyString => ""
  | String c r => encode_byte c ++ encode r
  end.

(** [params.toString()] *)
Definition toString (params : URLSearchParams) : string :=
  String.concat "&"
    (map (fun pair => encode (fst pair) ++ "=" ++ encode (snd pair)) params).

Fixpoint replace_plus (s : string) : string :=
  match s with
  | EmptyString => ""
  | String c r => String (if code c =? 43 then " "%char else c) (replace_plus r)
  end.

(** Percent-decoding: [%] and two hexadecimal digits are one byte; any
    other byte, a stray [%] included, is itself. *)
Fixpoint percent_decode (s : string) : string :=
  match s with
  | EmptyString => ""
  | String c r =>
      if code c =? 37 then
        match r with
        | String h (String l r') =>
            match digit_val 16 h, digit_val 16 l with
            | Some a, Some b =>
                String (ascii_of_N (Z.to_N (a * 16 + b))) (percent_decode r')
            | _, _ => String c (percent_decode r)
            end
        | _ => String c (percent_decode r)
        end
      else String c (percent_decode r)
  end.

(** The name before the first [=] and the value after it; all of it is
    the name when there is no [=]. *)
Fixpoint split_pair (s : string) : string * string :=
  match s with
  | EmptyString => ("", "")
  | String c r =>
      if code c =? 61 then ("", r)
      else let '(n, v) := split_pair r in (String c n, v)
  end.

(** The pairs of a query string (what follows the [?] of a URL): the
    pieces between [&], the empty ones skipped, each split at its first
    [=], [+] read as a space, then percent-decoded. *)
Definition parse (query : string) : URLSearchParams :=
  flat_map
    (fun piece =>
       match piece with
       | EmptyString => []
       | _ =>
           let '(n, v) := split_pair piece in
           [(percent_decode (replace_plus n), percent_decode (replace_plus v))]
       end)
    (split "&" query).

End URLSearchParams.

(** ** [/app/ui/search.tsx] *)

Module Search.
Import JS.

(** The parameters [handleSearch] builds from the current ones: a copy,
    its page set to 1, its query set to the term, or deleted when the
    term is empty. *)
Definition handleSearch_params (searchParams : URLSearchParams.URLSearchParams)
    (term : string) : URLSearchParams.URLSearchParams :=
  let params := searchParams in
  let params := URLSearchParams.set "page" "1" params in
  if truthy (VString term)
  then URLSearchParams.set "query" term params
  else URLSearchParams.delete "query" params.

(** The callback of [handleSearch], given what [useSearchParams()] and
    [usePathname()] return: the URL it hands to [replace]. *)
Definition handleSearch (searchParams : URLSearchParams.URLSearchParams)
    (pathname term : string) : string :=
  pathname ++ "?" ++ URLSearchParams.toString (handleSearch_params searchParams term).

(** [defaultValue={searchParams.get('query')?.toString()}]: what the
    search box shows when it is first rendered. *)
Definition defaultValue (searchParams : URLSearchParams.URLSearchParams) : Value :=
  match URLSearchParams.get searchParams "query" with
  | VString s => VString s
  | _ => VUndefined
  end.

End Search.

(** ** [/app/ui/invoices/pagination.tsx] *)

Module Pagination.
Import JS.

(** [Number(searchParams.get('page')) || 1] *)
Definition currentPage (searchParams : URLSearchParams.URLSearchParams) : Value :=
  logical_or (VNumber (Number (URLSearchParams.get searchParams "page")))
             (VNumber 1%float).

(** [pageNumber: number | string] *)
Inductive PageNumber : Type :=
| PageOfNumber (n : float)
| PageOfString (s : string).

Section WithNumberToString.
(** How a number is written as text ([Number.prototype.toString]) is left
    open. *)
Variable Number_toString : float -> string.

Definition toString (pageNumber : PageNumber) : string :=
  match pageNumber with
  | PageOfNumber n => Number_toString n
  | PageOfString s => s
  end.

Definition createPageURL_params (searchParams : URLSearchParams.URLSearchParams)
    (pageNumber : PageNumber) : URLSearchParams.URLSearchParams :=
  URLSearchParams.set "page" (toString pageNumber) searchParams.

Definition createPageURL (searchParams : URLSearchParams.URLSearchParams)
    (pathname : string) (pageNumber : PageNumber) : string :=
  pathname ++ "?"
    ++ URLSearchParams.toString (createPageURL_params searchParams pageNumber).

End WithNumberToString.

End Pagination.

(** ** [react/next-project/app/page.jsx] and the variants of its [Header]
    in [react_foundations.md] *)

Module Home.
Import JS.

(** What a heading holds. *)
Inductive Element : Type :=
| h1 (children : Value).

(** [function Header({ title })]; a prop that is not passed is
    [undefined]. *)
Definition Header (title : Value) : Element :=
  h1 (if truthy title then title else VString "Default title").

Definition createTitle (title : Value) : Value :=
  if truthy title then title else VString "Default title".

(** The [Header] that calls [createTitle]. *)
Definition Header_createTitle (title : Value) : Element :=
  h1 (createTitle title).

End Home.

(** ** Class names: [clsx], [/app/ui/invoices/status.tsx] and
    [/app/ui/dashboard/nav-links.tsx] *)

Module Styles.
Import JS.

(** The arguments the code gives [clsx]: a string, or an object from
    class names to conditions. *)
Inductive ClassValue : Type :=
| Classes (s : string)
| Toggles (entries : list (string * bool)).

(** [clsx(...)]: the non-empty strings and the keys whose condition holds,
    in order, separated by spaces. *)
Definition clsx (args : list ClassValue) : string :=
  String.concat " "
    (flat_map
       (fun arg =>
          match arg with
          | Classes s => if String.eqb s "" then [] else [s]
          | Toggles entries => map fst (filter snd entries)
          end)
       args).

(** The [className] of [InvoiceStatus]. *)
Definition InvoiceStatus (status : string) : string :=
  clsx [ Classes "inline-flex items-center rounded-full px-2 py-1 text-sm";
         Toggles [ ("bg-gray-100 text-gray-500", String.eqb status "pending");
                   ("bg-green-500 text-white", String.eqb status "paid") ] ].

Record NavLink : Type := { name : string; href : string }.

(** One rendered [<Link>]: its key, its target and its class names. *)
Record LinkElement : Type := {
  key : string;
  link_href : string;
  className : string;
}.

(** [NavLinks], over the [links] of the file and what [usePathname()]
    returns. *)
Definition NavLinks (links : list NavLink) (pathname : string) : list LinkElement :=
  map (fun link =>
         {| key := name link;
            link_href := href link;
            className :=
              clsx [ Classes "flex h-[48px] grow items-center justify-center gap-2 rounded-md bg-gray-50 p-3 text-sm font-medium hover:bg-sky-100 hover:text-blue-600 md:flex-none md:justify-start md:p-2 md:px-3";
                     Toggles [ ("bg-sky-100 text-blue-600",
                                String.eqb pathname (href link)) ] ] |})
      links.

End Styles.

(** ** The query behind [<LatestInvoices/>] in [/app/lib/data.ts] *)

Module LatestInvoices.

(** A row of the query: [invoices.amount, customers.name,
    customers.image_url, customers.email]. *)
Record LatestInvoiceRaw : Type := {
  amount : float;
  name : string;
  image_url : string;
  email : string;
}.

(** [FROM invoices JOIN customers ON invoices.customer_id = customers.id
    ORDER BY invoices.date DESC LIMIT 5], before the columns are
    selected. *)
Definition latest_rows (invoices : list Definitions.Invoice)
    (customers : list Data.Customer) : list Data.InvoiceRow :=
  firstn 5 (Data.order_by_date_desc (Data.joined invoices customers)).

(** The rows the query returns. *)
Definition latest_invoices (invoices : list Definitions.Invoice)
    (customers : list Data.Customer) : list LatestInvoiceRaw :=
  map (fun r =>
         {| amount := Data.amount r;
            name := Data.customer_name r;
            image_url := Data.customer_image_url r;
            email := Data.customer_email r |})
      (latest_rows invoices customers).

End LatestInvoices.

(** ** Vocabulary of the further statements *)

Module Terms.
Import JS Runtime.

(** The status of the row is one of the two values. *)
Definition valid_status (r : Definitions.Invoice) : Prop :=
  Definitions.status r = "pending" \/ Definitions.status r = "paid".

(** The value of a parameter as the page's [searchParams] prop has it,
    for a name the query string gives at most once. *)
Definition param (params : URLSearchParams.URLSearchParams) (name : string)
  : option string :=
  match URLSearchParams.get params name with
  | VString s => Some s
  | _ => None
  end.

(** The props the invoices page receives for a query string. *)
Definition props_of (params : URLSearchParams.URLSearchParams) : InvoicesPage.Props :=
  {| InvoicesPage.searchParams :=
       Some {| InvoicesPage.query := param params "query";
               InvoicesPage.page := param params "page" |} |}.

(** How many pairs of the name the parameters hold. *)
Definition occurrences (name : string) (params : URLSearchParams.URLSearchParams)
  : nat :=
  List.length (filter (fun pair => String.eqb (fst pair) name) params).

(** The class is one of the space-separated class names. *)
Definition has_class (class className : string) : bool :=
  existsb (String.eqb class) (split " " className).

(** The links shown as active. *)
Definition active_links (links : list Styles.LinkElement) : list Styles.LinkElement :=
  filter (fun l => has_class "bg-sky-100" (Styles.className l)) links.

(** The bytes an urlencoded name or value is made of. *)
Definition url_safe (c : ascii) : bool :=
  URLSearchParams.unreserved c || (code c =? 43) || (code c =? 37).

(** One pair as [toString] writes it. *)
Definition encoded_pair (pair : string * string) : string :=
  URLSearchParams.encode (fst pair) ++ "=" ++ URLSearchParams.encode (snd pair).

(** A customers query that rejects, for the examples of the edit page. *)
Definition failing_customers : Action (list string) :=
  throw (Runtime.Error "Failed to fetch all customers.").

(** The date of one row is not before the date of the other. *)
Definition not_before (a b : Data.InvoiceRow) : Prop :=
  String.leb (Data.date b) (Data.date a) = true.

(** The same world with the database behaving as given. *)
Definition with_fault (fault : option string) (w : World) : World :=
  {| invoices := invoices w; clock := clock w; db_fault := fault;
     new_id := new_id w; inserted := inserted w;
     console := console w; revalidated := revalidated w |}.

Definition continuation (c : ascii) : bool :=
  (128 <=? code c) && (code c <=? 191).

(** The bytes are well-formed UTF-8: the text is a string of Unicode
    scalar values (no lone surrogate, no overlong form, nothing beyond
    U+10FFFF). *)
Fixpoint well_formed_utf8 (s : string) : bool :=
  match s with
  | EmptyString => true
  | String a r =>
      let n := code a in
      if n <? 128 then well_formed_utf8 r
      else if (194 <=? n) && (n <=? 223) then
        match r with
        | String b r1 => continuation b && well_formed_utf8 r1
        | EmptyString => false
        end
      else if (224 <=? n) && (n <=? 239) then
        match r with
        | String b (String c r2) =>
            (if n =? 224 then (160 <=? code b) && (code b <=? 191)
             else if n =? 237 then (128 <=? code b) && (code b <=? 159)
             else continuation b)
            && continuation c && well_formed_utf8 r2
        | _ => false
        end
      else if (240 <=? n) && (n <=? 244) then
        match r with
        | String b (String c (String d r3)) =>
            (if n =? 240 then (144 <=? code b) && (code b <=? 191)
             else if n =? 244 then (128 <=? code b) && (code b <=? 143)
             else continuation b)
            && continuation c && continuation d && well_formed_utf8 r3
        | _ => false
        end
      else false
  end.

(** Every name and value of the parameters is well-formed UTF-8. *)
Definition well_formed_params (params : URLSearchParams.URLSearchParams) : bool :=
  forallb (fun pair => well_formed_utf8 (fst pair) && well_formed_utf8 (snd pair))
          params.

Definition example_links : list Styles.NavLink :=
  [ {| Styles.name := "Home"; Styles.href := "/dashboard" |};
    {| Styles.name := "Invoices"; Styles.href := "/dashboard/invoices" |};
    {| Styles.name := "Customers"; Styles.href := "/dashboard/customers" |} ].

End Terms.

(** ** Properties *)

Import JS Runtime Actions Spec.

(** *** The built-ins at known values *)

Example Number_of_numeric_strings :
  Number (VString "-5") = (-5)%float
  /\ Number (VString " 12.5 ") = 12.5%float
  /\ Number (VString "1e3") = 1000%float
  /\ Number (VString "0x1F") = 31%float
  /\ Number (VString ".5") = 0.5%float
  /\ Number (VString "") = 0%float
  /\ Number VNull = 0%float
  /\ Number (VString "Infinity") = PrimFloat.infinity.
Proof. vm_compute. repeat split. Qed.

Example Number_of_other_strings :
  map (fun s => PrimFloat.is_nan (Number (VString s)))
      ["abc"; "12px"; "1 2"; "1e"; "."; "-"; "0x"; "-0x1F"; "1_000"]
  = [true; true; true; true; true; true; true; true; true]
  /\ PrimFloat.is_nan (Number VUndefined) = true
  /\ PrimFloat.is_nan (Number (VFile "a.png")) = true.
Proof. vm_compute. repeat split. Qed.

Example toISOString_at_known_times :
  toISOString 0 = "1970-01-01T00:00:00.000Z"
  /\ toISOString (-1) = "1969-12-31T23:59:59.999Z"
  /\ toISOString 951782400000 = "2000-02-29T00:00:00.000Z"
  /\ toISOString 1793659725123 = "2026-11-02T22:48:45.123Z"
  /\ toISOString 253402300800000 = "+010000-01-01T00:00:00.000Z"
  /\ split "T" (toISOString 1793659725123) = ["2026-11-02"; "22:48:45.123Z"].
Proof. vm_compute. repeat split. Qed.

(** *** The schema *)

Lemma CreateInvoice_fields :
  CreateInvoice =
    [ ("customerId", Zod.ZodString);
      ("amount", Zod.ZodCoerceNumber);
      ("status", Zod.ZodEnum ["pending"; "paid"]) ].
Proof. reflexivity. Qed.

Lemma UpdateInvoice_fields : UpdateInvoice = CreateInvoice.
Proof. reflexivity. Qed.

Section Schema.
Variable allow_infinite : bool.
Variable input : Obj.

Lemma check_fields_no_issue (shape : Zod.ZodObject) :
  snd (Zod.check_fields allow_infinite shape input) = []
  <-> forallb (field_ok allow_infinite input) shape = true.
Proof.
  induction shape as [|[k t] rest IH]; simpl.
  - tauto.
  - unfold field_ok at 1; simpl.
    destruct (Zod.check_fields allow_infinite rest input) as [out issues].
    simpl in IH.
    destruct (Zod.check_value allow_infinite t (prop input k)); simpl.
    + exact IH.
    + split; discriminate.
Qed.

Lemma accepts_forallb (shape : Zod.ZodObject) :
  accepts allow_infinite shape input = true
  <-> forallb (field_ok allow_infinite input) shape = true.
Proof.
  rewrite <- check_fields_no_issue.
  unfold accepts, Zod.check.
  destruct (Zod.check_fields allow_infinite shape input) as [out [|i issues]]; simpl.
  - tauto.
  - split; discriminate.
Qed.

(** The issues of a failed check are about fields of the schema. *)
Lemma check_fields_paths (shape : Zod.ZodObject) :
  Forall (fun i => In (Zod.path i) (map fst shape))
         (snd (Zod.check_fields allow_infinite shape input)).
Proof.
  induction shape as [|[k t] rest IH]; simpl.
  - constructor.
  - destruct (Zod.check_fields allow_infinite rest input) as [out issues].
    simpl in IH.
    assert (Forall (fun i => k = Zod.path i \/ In (Zod.path i) (map fst rest)) issues)
      as Hrest by (eapply Forall_impl; [|exact IH]; simpl; auto).
    destruct (Zod.check_value allow_infinite t (prop input k)); simpl.
    + exact Hrest.
    + constructor; [left; reflexivity | exact Hrest].
Qed.

Lemma check_inr (shape : Zod.ZodObject) (issues : list Zod.ZodIssue) :
  Zod.check allow_infinite shape input = inr issues ->
  issues <> [] /\ Forall (fun i => In (Zod.path i) (map fst shape)) issues.
Proof.
  unfold Zod.check. intros H.
  pose proof (check_fields_paths shape) as Hp.
  destruct (Zod.check_fields allow_infinite shape input) as [out [|i l]];
    [discriminate|].
  injection H as <-. split; [discriminate | exact Hp].
Qed.

Lemma string_field_ok (k : string) :
  field_ok allow_infinite input (k, Zod.ZodString) = true
  <-> exists s, prop input k = VString s.
Proof.
  unfold field_ok; simpl.
  destruct (prop input k); simpl; split;
    try discriminate; try (intros [s' Hs]; discriminate); eauto.
Qed.

Lemma number_field_ok (k : string) :
  field_ok allow_infinite input (k, Zod.ZodCoerceNumber) = true
  <-> Zod.number_ok allow_infinite (Number (prop input k)) = true.
Proof.
  unfold field_ok; simpl.
  destruct (Zod.number_ok allow_infinite (Number (prop input k)));
    split; auto; discriminate.
Qed.

Lemma status_field_ok (k : string) :
  field_ok allow_infinite input (k, Zod.ZodEnum ["pending"; "paid"]) = true
  <-> prop input k = VString "pending" \/ prop input k = VString "paid".
Proof.
  unfold field_ok; simpl.
  destruct (prop input k) as [| |s| |]; simpl;
    try (split; [discriminate | intros [H|H]; discriminate]).
  destruct (String.eqb_spec s "pending") as [->|Hn1]; simpl.
  - split; auto.
  - destruct (String.eqb_spec s "paid") as [->|Hn2]; simpl.
    + split; auto.
    + split; [discriminate|].
      intros [H|H]; injection H as ->; contradiction.
Qed.

(** What a successful check of the invoice schema returns. *)
Lemma check_CreateInvoice_inl (data : Obj) :
  Zod.check allow_infinite CreateInvoice input = inl data ->
  exists c s,
    prop input "customerId" = VString c
    /\ Zod.number_ok allow_infinite (Number (prop input "amount")) = true
    /\ prop input "status" = VString s
    /\ (s = "pending" \/ s = "paid")
    /\ data = [ ("customerId", VString c);
                ("amount", VNumber (Number (prop input "amount")));
                ("status", VString s) ].
Proof.
  unfold Zod.check. rewrite CreateInvoice_fields.
  cbn [Zod.check_fields Zod.check_value].
  destruct (prop input "customerId") as [| |c| |];
    destruct (Zod.number_ok allow_infinite (Number (prop input "amount")));
    destruct (prop input "status") as [| |s| |];
    cbn -[Zod.mem]; try discriminate;
    destruct (Zod.mem s ["pending"; "paid"]) eqn:Hs; cbn; try discriminate.
  intros [= <-]. exists c, s. repeat split; try reflexivity.
  simpl in Hs.
  destruct (String.eqb_spec s "pending"); [left; assumption|].
  destruct (String.eqb_spec s "paid"); [right; assumption|discriminate].
Qed.

End Schema.

(** C3 (as the code has it): the invoice schema of either action accepts
    an input exactly when its customer is a string, its amount coerces to
    a number (one that is not NaN, and finite where the library requires
    it) of any sign, zero and negative amounts included, and its status is
    one of the two values 'pending' and 'paid'; every other input fails
    the check. *)
Theorem schema_accepts_iff (allow_infinite : bool) (input : Obj) :
  (accepts allow_infinite CreateInvoice input = true
   <-> valid_input allow_infinite input)
  /\ (accepts allow_infinite UpdateInvoice input = true
      <-> valid_input allow_infinite input).
Proof.
  rewrite UpdateInvoice_fields.
  assert (accepts allow_infinite CreateInvoice input = true
          <-> valid_input allow_infinite input) as H; [|split; exact H].
  unfold valid_input.
  rewrite accepts_forallb, CreateInvoice_fields. simpl forallb.
  rewrite !andb_true_iff, string_field_ok, number_field_ok, status_field_ok.
  tauto.
Qed.

(** C3 fails as stated: an amount of -5 (and likewise 0) is not strictly
    positive, and the schema accepts it. *)
Lemma schema_accepts_negative_amount :
  accepts true CreateInvoice (raw_form (form "c1" "-5" "paid")) = true
  /\ accepts false UpdateInvoice (raw_form (form "c1" "-5" "paid")) = true
  /\ PrimFloat.ltb 0 (Number (get (form "c1" "-5" "paid") "amount")) = false
  /\ accepts true CreateInvoice (raw_form (form "c1" "0" "paid")) = true.
Proof. vm_compute. repeat split. Qed.

(** *** Running the actions *)

Section Runs.
Variable allow_infinite : bool.
Variable formData : FormData.
Variable w : World.

Lemma accepts_inl :
  accepts allow_infinite CreateInvoice (raw_form formData) = true ->
  exists c s,
    get formData "customerId" = VString c
    /\ get formData "status" = VString s
    /\ (s = "pending" \/ s = "paid")
    /\ Zod.check allow_infinite CreateInvoice (raw_form formData)
       = inl [ ("customerId", VString c);
               ("amount", VNumber (Number (get formData "amount")));
               ("status", VString s) ].
Proof.
  unfold accepts.
  destruct (Zod.check allow_infinite CreateInvoice (raw_form formData))
    as [data|issues] eqn:E; [intros _|discriminate].
  destruct (check_CreateInvoice_inl _ _ _ E) as (c & s & Hc & _ & Hs & Hv & ->).
  exists c, s. auto.
Qed.

(** A rejected form: the check's issues are thrown, and nothing else
    happens. *)
Lemma createInvoice_rejected (issues : list Zod.ZodIssue) :
  Zod.check allow_infinite CreateInvoice (raw_form formData) = inr issues ->
  createInvoice allow_infinite formData w = (Throw (ZodError issues), w).
Proof.
  intros E. unfold createInvoice, parse, bind. rewrite E. reflexivity.
Qed.

Lemma updateInvoice_rejected (id : string) (issues : list Zod.ZodIssue) :
  Zod.check allow_infinite CreateInvoice (raw_form formData) = inr issues ->
  updateInvoice allow_infinite id formData w = (Throw (ZodError issues), w).
Proof.
  intros E. unfold updateInvoice, parse, bind.
  rewrite UpdateInvoice_fields, E. reflexivity.
Qed.

(** An accepted form: the statement is sent inside the [try], then the
    path is revalidated, then the redirect is thrown. *)
Lemma createInvoice_accepted :
  accepts allow_infinite CreateInvoice (raw_form formData) = true ->
  createInvoice allow_infinite formData w
  = (Throw (NEXT_REDIRECT "/dashboard/invoices"),
     snd (revalidatePath "/dashboard/invoices"
            (snd (try_catch
                    (sql (INSERT_INTO_invoices
                            (string_of (get formData "customerId"))
                            (cents_of formData)
                            (string_of (get formData "status"))
                            (today w)))
                    console_error w)))).
Proof.
  intros H. destruct (accepts_inl H) as (c & s & Hc & Hs & _ & E).
  unfold createInvoice, parse, bind at 1. rewrite E.
  unfold ret, cents_of, today. rewrite Hc, Hs. cbn [prop String.eqb Ascii.eqb Bool.eqb string_of number_of].
  unfold bind, new_Date, try_catch, sql, redirect, throw.
  destruct (db_fault w); reflexivity.
Qed.

Lemma updateInvoice_accepted (id : string) :
  accepts allow_infinite CreateInvoice (raw_form formData) = true ->
  updateInvoice allow_infinite id formData w
  = (Throw (NEXT_REDIRECT "/dashboard/invoices"),
     snd (revalidatePath "/dashboard/invoices"
            (snd (try_catch
                    (sql (UPDATE_invoices
                            (string_of (get formData "customerId"))
                            (cents_of formData)
                            (string_of (get formData "status"))
                            id))
                    console_error w)))).
Proof.
  intros H. destruct (accepts_inl H) as (c & s & Hc & Hs & _ & E).
  unfold updateInvoice, parse, bind at 1. rewrite UpdateInvoice_fields, E.
  unfold ret, cents_of. rewrite Hc, Hs. cbn [prop String.eqb Ascii.eqb Bool.eqb string_of number_of].
  unfold bind, try_catch, sql, redirect, throw.
  destruct (db_fault w); reflexivity.
Qed.

End Runs.


(** *** Amounts *)




(** The update of the witness at work: the row of the identifier takes
    the amount 1234 and the other row keeps its own. *)
Example updated_amount_of_one_row :
  map (fun r => integer_value (Definitions.amount r))
      (invoices (snd (updateInvoice true "a" (form "c1" "12.34" "paid")
                        (world [invoice "a" 100%float; invoice "b" 100%float] None))))
  = [Some 1234; Some 100].
Proof. vm_compute. reflexivity. Qed.


(** *** Validation failures *)

(** C2 (as the code has it): for every form input that fails the check of
    the schema, createInvoice and updateInvoice throw: the exception is
    the schema's error, which carries at least one issue, each naming the
    field it is about; nothing is written, logged or revalidated, and no
    redirect is issued. *)
Theorem validation_failure_is_thrown
    (allow_infinite : bool) (formData : FormData) (w : World)
    (issues : list Zod.ZodIssue) :
  Zod.check allow_infinite CreateInvoice (raw_form formData) = inr issues ->
  createInvoice allow_infinite formData w = (Throw (ZodError issues), w)
  /\ (forall id,
         updateInvoice allow_infinite id formData w = (Throw (ZodError issues), w))
  /\ issues <> []
  /\ Forall (fun i => In (Zod.path i) ["customerId"; "amount"; "status"]) issues.
Proof.
  intros E. split; [|split].
  - apply createInvoice_rejected, E.
  - intros id. apply updateInvoice_rejected, E.
  - exact (check_inr _ _ _ _ E).
Qed.

Lemma validation_failure_is_thrown_witness :
  createInvoice true (form "c1" "abc" "overdue") (world [] None)
  = (Throw (ZodError [ {| Zod.path := "amount"; Zod.code := Zod.invalid_type |};
                       {| Zod.path := "status"; Zod.code := Zod.invalid_enum_value |} ]),
     world [] None)
  /\ (forall id,
         updateInvoice true id (form "c1" "abc" "overdue") (world [] None)
         = (Throw (ZodError
                     [ {| Zod.path := "amount"; Zod.code := Zod.invalid_type |};
                       {| Zod.path := "status"; Zod.code := Zod.invalid_enum_value |} ]),
            world [] None))
  /\ [ {| Zod.path := "amount"; Zod.code := Zod.invalid_type |};
       {| Zod.path := "status"; Zod.code := Zod.invalid_enum_value |} ] <> []
  /\ Forall (fun i => In (Zod.path i) ["customerId"; "amount"; "status"])
            [ {| Zod.path := "amount"; Zod.code := Zod.invalid_type |};
              {| Zod.path := "status"; Zod.code := Zod.invalid_enum_value |} ].
Proof.
  apply (validation_failure_is_thrown true (form "c1" "abc" "overdue") (world [] None)).
  reflexivity.
Defined.

(** C2 fails as stated: a form whose amount is no number and whose status
    is not one of the two values makes both actions throw. *)
Lemma invalid_form_throws :
  fst (createInvoice true (form "c1" "abc" "overdue") (world [] None))
  = Throw (ZodError [ {| Zod.path := "amount"; Zod.code := Zod.invalid_type |};
                      {| Zod.path := "status"; Zod.code := Zod.invalid_enum_value |} ])
  /\ fst (updateInvoice true "a" (form "c1" "abc" "overdue") (world [] None))
     = Throw (ZodError [ {| Zod.path := "amount"; Zod.code := Zod.invalid_type |};
                         {| Zod.path := "status"; Zod.code := Zod.invalid_enum_value |} ]).
Proof. vm_compute. split; reflexivity. Qed.

(** *** Redirects, cache invalidation and database failures *)

Lemma deleteInvoice_run (id : string) (w : World) :
  deleteInvoice id w
  = match db_fault w with
    | Some message => (Throw (PostgresError message), w)
    | None =>
        (Ok tt,
         snd (revalidatePath "/dashboard/invoices"
                (execute (DELETE_FROM_invoices id) w)))
    end.
Proof.
  unfold deleteInvoice, bind, sql. destruct (db_fault w); reflexivity.
Qed.

(** C5: after createInvoice and after updateInvoice on a form the schema
    accepts, whatever the database does, the path '/dashboard/invoices'
    has been revalidated and a redirect to '/dashboard/invoices' is
    issued; deleteInvoice never issues a redirect. *)
Theorem create_and_update_redirect_delete_does_not
    (allow_infinite : bool) (formData : FormData) (w : World) :
  accepts allow_infinite CreateInvoice (raw_form formData) = true ->
  fst (createInvoice allow_infinite formData w)
  = Throw (NEXT_REDIRECT "/dashboard/invoices")
  /\ (forall id,
         fst (updateInvoice allow_infinite id formData w)
         = Throw (NEXT_REDIRECT "/dashboard/invoices"))
  /\ revalidated (snd (createInvoice allow_infinite formData w))
     = (revalidated w ++ ["/dashboard/invoices"])%list
  /\ (forall id,
         revalidated (snd (updateInvoice allow_infinite id formData w))
         = (revalidated w ++ ["/dashboard/invoices"])%list)
  /\ (forall id url, fst (deleteInvoice id w) <> Throw (NEXT_REDIRECT url)).
Proof.
  intros Hok. repeat split; intros.
  - rewrite createInvoice_accepted by exact Hok. reflexivity.
  - rewrite updateInvoice_accepted by exact Hok. reflexivity.
  - rewrite createInvoice_accepted by exact Hok.
    unfold try_catch, sql. destruct (db_fault w); reflexivity.
  - rewrite updateInvoice_accepted by exact Hok.
    unfold try_catch, sql. destruct (db_fault w); reflexivity.
  - rewrite deleteInvoice_run. destruct (db_fault w); discriminate.
Qed.

Lemma create_and_update_redirect_delete_does_not_witness :
  fst (createInvoice true (form "c1" "12.34" "paid") (world [] None))
  = Throw (NEXT_REDIRECT "/dashboard/invoices")
  /\ (forall id,
         fst (updateInvoice true id (form "c1" "12.34" "paid") (world [] None))
         = Throw (NEXT_REDIRECT "/dashboard/invoices"))
  /\ revalidated (snd (createInvoice true (form "c1" "12.34" "paid") (world [] None)))
     = (revalidated (world [] None) ++ ["/dashboard/invoices"])%list
  /\ (forall id,
         revalidated (snd (updateInvoice true id (form "c1" "12.34" "paid")
                             (world [] None)))
         = (revalidated (world [] None) ++ ["/dashboard/invoices"])%list)
  /\ (forall id url,
         fst (deleteInvoice id (world [] None)) <> Throw (NEXT_REDIRECT url)).
Proof.
  apply (create_and_update_redirect_delete_does_not true
           (form "c1" "12.34" "paid") (world [] None)).
  reflexivity.
Defined.

(** C6 (as the code has it): when the database rejects the statement of
    createInvoice or updateInvoice (the form being one the schema
    accepts), the error is caught and logged, the table is left as it
    was, and the action ends as it does on success: it revalidates
    '/dashboard/invoices' and issues the same redirect, so the caller
    does not see the failure. deleteInvoice has no try/catch: the error
    of the database reaches its caller, and it neither logs nor
    revalidates. *)
Theorem database_failure_caught_in_create_and_update_only
    (allow_infinite : bool) (formData : FormData) (w : World) (message : string) :
  accepts allow_infinite CreateInvoice (raw_form formData) = true ->
  db_fault w = Some message ->
  (fst (createInvoice allow_infinite formData w)
   = fst (createInvoice allow_infinite formData (without_fault w))
   /\ invoices (snd (createInvoice allow_infinite formData w)) = invoices w
   /\ console (snd (createInvoice allow_infinite formData w))
      = (console w ++ [PostgresError message])%list
   /\ revalidated (snd (createInvoice allow_infinite formData w))
      = revalidated (snd (createInvoice allow_infinite formData (without_fault w))))
  /\ (forall id,
         fst (updateInvoice allow_infinite id formData w)
         = fst (updateInvoice allow_infinite id formData (without_fault w))
         /\ invoices (snd (updateInvoice allow_infinite id formData w)) = invoices w
         /\ console (snd (updateInvoice allow_infinite id formData w))
            = (console w ++ [PostgresError message])%list
         /\ revalidated (snd (updateInvoice allow_infinite id formData w))
            = revalidated
                (snd (updateInvoice allow_infinite id formData (without_fault w))))
  /\ (forall id, deleteInvoice id w = (Throw (PostgresError message), w)).
Proof.
  intros Hok Hdb. split; [|split].
  - rewrite !createInvoice_accepted by exact Hok.
    unfold try_catch, sql. rewrite Hdb. simpl. auto.
  - intros id. rewrite !updateInvoice_accepted by exact Hok.
    unfold try_catch, sql. rewrite Hdb. simpl. auto.
  - intros id. rewrite deleteInvoice_run, Hdb. reflexivity.
Qed.

Lemma database_failure_caught_in_create_and_update_only_witness :
  (fst (createInvoice true (form "c1" "12.34" "paid") (world [] (Some "timeout")))
   = fst (createInvoice true (form "c1" "12.34" "paid")
            (without_fault (world [] (Some "timeout"))))
   /\ invoices (snd (createInvoice true (form "c1" "12.34" "paid")
                       (world [] (Some "timeout"))))
      = invoices (world [] (Some "timeout"))
   /\ console (snd (createInvoice true (form "c1" "12.34" "paid")
                      (world [] (Some "timeout"))))
      = (console (world [] (Some "timeout")) ++ [PostgresError "timeout"])%list
   /\ revalidated (snd (createInvoice true (form "c1" "12.34" "paid")
                          (world [] (Some "timeout"))))
      = revalidated (snd (createInvoice true (form "c1" "12.34" "paid")
                            (without_fault (world [] (Some "timeout"))))))
  /\ (forall id,
         fst (updateInvoice true id (form "c1" "12.34" "paid")
                (world [] (Some "timeout")))
         = fst (updateInvoice true id (form "c1" "12.34" "paid")
                  (without_fault (world [] (Some "timeout"))))
         /\ invoices (snd (updateInvoice true id (form "c1" "12.34" "paid")
                             (world [] (Some "timeout"))))
            = invoices (world [] (Some "timeout"))
         /\ console (snd (updateInvoice true id (form "c1" "12.34" "paid")
                            (world [] (Some "timeout"))))
            = (console (world [] (Some "timeout")) ++ [PostgresError "timeout"])%list
         /\ revalidated (snd (updateInvoice true id (form "c1" "12.34" "paid")
                                (world [] (Some "timeout"))))
            = revalidated
                (snd (updateInvoice true id (form "c1" "12.34" "paid")
                        (without_fault (world [] (Some "timeout"))))))
  /\ (forall id,
         deleteInvoice id (world [] (Some "timeout"))
         = (Throw (PostgresError "timeout"), world [] (Some "timeout"))).
Proof.
  apply (database_failure_caught_in_create_and_update_only true
           (form "c1" "12.34" "paid") (world [] (Some "timeout")) "timeout");
    reflexivity.
Defined.

(** C6 fails as stated for deleteInvoice: when the database rejects its
    statement the action throws the database's error to its caller,
    having logged nothing and revalidated nothing. *)
Lemma deleteInvoice_surfaces_database_failure :
  fst (deleteInvoice "a" (world [invoice "a" 100%float] (Some "timeout")))
  = Throw (PostgresError "timeout")
  /\ console (snd (deleteInvoice "a" (world [invoice "a" 100%float] (Some "timeout"))))
     = []
  /\ revalidated
       (snd (deleteInvoice "a" (world [invoice "a" 100%float] (Some "timeout"))))
     = [].
Proof. vm_compute. repeat split. Qed.

(** *** Deleting *)

Lemma filter_no_match (id : string) (rows : list Definitions.Invoice) :
  (forall r, In r rows -> Definitions.id r <> id) ->
  filter (fun r => negb (String.eqb (Definitions.id r) id)) rows = rows.
Proof.
  induction rows as [|r rows IH]; simpl; intros H; [reflexivity|].
  destruct (String.eqb_spec (Definitions.id r) id) as [E|_]; simpl.
  - exfalso. exact (H r (or_introl eq_refl) E).
  - f_equal. apply IH. intros r' Hr'. apply H. right. exact Hr'.
Qed.

(** C7: calling deleteInvoice on an identifier that no invoice has leaves
    the invoices table as it was, and the missing invoice is no error:
    when the database carries out the statement the action completes,
    having only revalidated '/dashboard/invoices' (the one error it can
    end with is a failure of the database itself). *)
Theorem deleteInvoice_of_missing_id (id : string) (w : World) :
  (forall r, In r (invoices w) -> Definitions.id r <> id) ->
  invoices (snd (deleteInvoice id w)) = invoices w
  /\ fst (deleteInvoice id w)
     = match db_fault w with
       | None => Ok tt
       | Some message => Throw (PostgresError message)
       end
  /\ (db_fault w = None ->
      deleteInvoice id w = (Ok tt, snd (revalidatePath "/dashboard/invoices" w))).
Proof.
  intros Hno. rewrite deleteInvoice_run.
  destruct w as [rows t fault ids n log paths]; simpl in *.
  destruct fault as [message|]; simpl.
  - repeat split. discriminate.
  - unfold with_invoices; simpl.
    rewrite (filter_no_match id rows Hno). repeat split.
Qed.

Lemma deleteInvoice_of_missing_id_witness :
  invoices (snd (deleteInvoice "b" (world [invoice "a" 100%float] None)))
  = invoices (world [invoice "a" 100%float] None)
  /\ fst (deleteInvoice "b" (world [invoice "a" 100%float] None))
     = match db_fault (world [invoice "a" 100%float] None) with
       | None => Ok tt
       | Some message => Throw (PostgresError message)
       end
  /\ (db_fault (world [invoice "a" 100%float] None) = None ->
      deleteInvoice "b" (world [invoice "a" 100%float] None)
      = (Ok tt,
         snd (revalidatePath "/dashboard/invoices"
                (world [invoice "a" 100%float] None)))).
Proof.
  apply (deleteInvoice_of_missing_id "b" (world [invoice "a" 100%float] None)).
  simpl. intros r [<-|[]]. discriminate.
Defined.

(** Deleting twice leaves the table as deleting once does. *)
Lemma deleteInvoice_idempotent (id : string) (w : World) :
  invoices (snd (deleteInvoice id (snd (deleteInvoice id w))))
  = invoices (snd (deleteInvoice id w)).
Proof.
  rewrite !deleteInvoice_run.
  destruct w as [rows t fault ids n log paths]; simpl.
  destruct fault as [message|]; simpl; [reflexivity|].
  apply filter_no_match. intros r Hr E.
  apply filter_In in Hr. destruct Hr as [_ Hr].
  rewrite E, String.eqb_refl in Hr. discriminate.
Qed.

(** *** The request parameters of the invoices page *)

Lemma truthy_number (n : float) :
  logical_or (VNumber n) (VNumber 1%float)
  = VNumber (if PrimFloat.is_nan n || PrimFloat.is_zero n then 1%float else n).
Proof.
  unfold logical_or, truthy.
  destruct (PrimFloat.is_nan n || PrimFloat.is_zero n); reflexivity.
Qed.

(** C8 (as the code has it): the page resolves [query] to the text given,
    and to the empty string when it is absent; it resolves [page] to
    Number(page) when that is a number other than NaN and zero, whatever
    its sign and whether or not it is an integer, and to 1 otherwise, so
    to 1 when [page] is absent or not numeric. *)
Theorem Page_resolves_query_and_page (props : InvoicesPage.Props) :
  InvoicesPage.table_query (InvoicesPage.Page props)
  = VString
      match InvoicesPage.searchParams props with
      | Some {| InvoicesPage.query := Some q |} => q
      | _ => ""
      end
  /\ InvoicesPage.table_currentPage (InvoicesPage.Page props)
     = VNumber
         (if PrimFloat.is_nan
               (Number (InvoicesPage.optional (InvoicesPage.searchParams props)
                          InvoicesPage.page))
             || PrimFloat.is_zero
                  (Number (InvoicesPage.optional (InvoicesPage.searchParams props)
                             InvoicesPage.page))
          then 1%float
          else Number (InvoicesPage.optional (InvoicesPage.searchParams props)
                         InvoicesPage.page))
  /\ (InvoicesPage.optional (InvoicesPage.searchParams props) InvoicesPage.page
      = VUndefined ->
      InvoicesPage.table_currentPage (InvoicesPage.Page props) = VNumber 1%float)
  /\ (PrimFloat.is_nan
        (Number (InvoicesPage.optional (InvoicesPage.searchParams props)
                   InvoicesPage.page)) = true ->
      InvoicesPage.table_currentPage (InvoicesPage.Page props) = VNumber 1%float).
Proof.
  unfold InvoicesPage.Page; simpl InvoicesPage.table_query;
    simpl InvoicesPage.table_currentPage.
  rewrite truthy_number.
  split; [|split; [reflexivity|split]].
  - destruct (InvoicesPage.searchParams props) as [[[q|] pg]|]; simpl;
      try reflexivity.
    unfold logical_or, truthy.
    destruct (String.eqb_spec q "") as [->|_]; reflexivity.
  - intros ->. reflexivity.
  - intros ->. reflexivity.
Qed.

(** C8 fails as stated: [page=-3] resolves to -3, which is not positive,
    and [page=2.5] to 2.5, which is not an integer. *)
Lemma Page_resolves_negative_page :
  InvoicesPage.table_currentPage
    (InvoicesPage.Page
       {| InvoicesPage.searchParams :=
            Some {| InvoicesPage.query := None; InvoicesPage.page := Some "-3" |} |})
  = VNumber (-3)%float
  /\ PrimFloat.ltb 0 (-3) = false
  /\ InvoicesPage.table_currentPage
       (InvoicesPage.Page
          {| InvoicesPage.searchParams :=
               Some {| InvoicesPage.query := None; InvoicesPage.page := Some "2.5" |} |})
     = VNumber 2.5%float.
Proof. vm_compute. repeat split. Qed.

Example Page_at_known_requests :
  InvoicesPage.Page {| InvoicesPage.searchParams := None |}
  = {| InvoicesPage.table_query := VString "";
       InvoicesPage.table_currentPage := VNumber 1%float |}
  /\ InvoicesPage.Page
       {| InvoicesPage.searchParams :=
            Some {| InvoicesPage.query := Some "lee"; InvoicesPage.page := Some "2" |} |}
     = {| InvoicesPage.table_query := VString "lee";
          InvoicesPage.table_currentPage := VNumber 2%float |}
  /\ InvoicesPage.Page
       {| InvoicesPage.searchParams :=
            Some {| InvoicesPage.query := None; InvoicesPage.page := Some "abc" |} |}
     = {| InvoicesPage.table_query := VString "";
          InvoicesPage.table_currentPage := VNumber 1%float |}
  /\ InvoicesPage.Page
       {| InvoicesPage.searchParams :=
            Some {| InvoicesPage.query := Some ""; InvoicesPage.page := Some "0" |} |}
     = {| InvoicesPage.table_query := VString "";
          InvoicesPage.table_currentPage := VNumber 1%float |}.
Proof. vm_compute. repeat split. Qed.

(** *** The edit page *)

Section EditPageFacts.
Variables InvoiceForm CustomerField : Type.
Variable fetchInvoiceById : string -> Action (option InvoiceForm).
Variable fetchCustomers : Action (list CustomerField).

(** An uncaught exception of a query that is not the not-found signal
    shows the error component. *)
Lemma failed_lookup_shows_error (id message : string) (w w1 : World) :
  fetchInvoiceById id w = (Throw (Runtime.Error message), w1) ->
  EditPage.render fetchInvoiceById fetchCustomers id w
  = EditPage.Error (Runtime.Error message).
Proof.
  intros H. unfold EditPage.render, EditPage.Page, EditPage.Promise_all, bind.
  rewrite H. destruct (fetchCustomers w1) as [[cs|e] w2]; reflexivity.
Qed.

Lemma found_invoice_shows_form (id : string) (invoice : InvoiceForm)
    (customers : list CustomerField) (w w1 w2 : World) :
  fetchInvoiceById id w = (Ok (Some invoice), w1) ->
  fetchCustomers w1 = (Ok customers, w2) ->
  EditPage.render fetchInvoiceById fetchCustomers id w
  = EditPage.Form invoice customers.
Proof.
  intros H1 H2. unfold EditPage.render, EditPage.Page, EditPage.Promise_all, bind.
  rewrite H1, H2. reflexivity.
Qed.

End EditPageFacts.

(** C9 (as the code has it): when the lookup by identifier of the edit
    page finds no invoice (fetchInvoiceById resolves to undefined) and
    the customers query awaited with it resolves, the page signals
    not-found and the segment shows the NotFound component, which is not
    the Error component of the generic error state. *)
Theorem missing_invoice_shows_not_found
    (InvoiceForm CustomerField : Type)
    (fetchInvoiceById : string -> Action (option InvoiceForm))
    (fetchCustomers : Action (list CustomerField))
    (id : string) (customers : list CustomerField) (w w1 w2 : World) :
  fetchInvoiceById id w = (Ok None, w1) ->
  fetchCustomers w1 = (Ok customers, w2) ->
  EditPage.Page fetchInvoiceById fetchCustomers id w = (Throw NEXT_NOT_FOUND, w2)
  /\ EditPage.render fetchInvoiceById fetchCustomers id w = EditPage.NotFound
  /\ (forall error : Exn,
         @EditPage.NotFound InvoiceForm CustomerField <> EditPage.Error error).
Proof.
  intros H1 H2.
  assert (EditPage.Page fetchInvoiceById fetchCustomers id w
          = (Throw NEXT_NOT_FOUND, w2)) as HP.
  { unfold EditPage.Page, EditPage.Promise_all, bind. rewrite H1, H2. reflexivity. }
  split; [exact HP|split].
  - unfold EditPage.render. rewrite HP. reflexivity.
  - discriminate.
Qed.

Lemma missing_invoice_shows_not_found_witness :
  EditPage.Page find_invoice no_customers "b" (world [invoice "a" 100%float] None)
  = (Throw NEXT_NOT_FOUND, world [invoice "a" 100%float] None)
  /\ EditPage.render find_invoice no_customers "b" (world [invoice "a" 100%float] None)
     = EditPage.NotFound
  /\ (forall error : Exn,
         @EditPage.NotFound Definitions.Invoice string <> EditPage.Error error).
Proof.
  apply (missing_invoice_shows_not_found Definitions.Invoice string
           find_invoice no_customers "b" []
           (world [invoice "a" 100%float] None)
           (world [invoice "a" 100%float] None)
           (world [invoice "a" 100%float] None)); reflexivity.
Defined.

(** C9 fails as stated: the lookup finds no invoice, the customers query
    awaited with it rejects, and the segment shows the Error component of
    the generic error state, not NotFound. *)
Lemma missing_invoice_with_failed_customers_shows_error :
  find_invoice "b" (world [invoice "a" 100%float] None)
  = (Ok None, world [invoice "a" 100%float] None)
  /\ EditPage.render find_invoice Terms.failing_customers "b"
       (world [invoice "a" 100%float] None)
     = EditPage.Error (Runtime.Error "Failed to fetch all customers.")
  /\ EditPage.render find_invoice Terms.failing_customers "b"
       (world [invoice "a" 100%float] None)
     <> EditPage.NotFound.
Proof. vm_compute. repeat split. discriminate. Qed.

(** *** The date of a new invoice *)

Lemma all_chars_app (p : ascii -> bool) (a b : string) :
  all_chars p (a ++ b) = all_chars p a && all_chars p b.
Proof.
  induction a as [|c a IH]; simpl; [reflexivity|].
  rewrite IH, andb_assoc. reflexivity.
Qed.

Lemma all_chars_impl (p q : ascii -> bool) (s : string) :
  (forall c, p c = true -> q c = true) ->
  all_chars p s = true -> all_chars q s = true.
Proof.
  intros Hpq. induction s as [|c s IH]; simpl; [reflexivity|].
  intros H. apply andb_true_iff in H. destruct H as [Hc Hs].
  rewrite (Hpq c Hc), (IH Hs). reflexivity.
Qed.

(** Splitting at a separator: the text before its first occurrence is the
    first segment. *)
Lemma split_first_segment (sep : ascii) (a b : string) :
  all_chars (fun c => negb (Ascii.eqb c sep)) a = true ->
  split sep (a ++ String sep b) = a :: split sep b.
Proof.
  induction a as [|c a IH]; simpl; intros H.
  - rewrite Ascii.eqb_refl. reflexivity.
  - apply andb_true_iff in H. destruct H as [Hc Ha].
    apply negb_true_iff in Hc. rewrite Hc, (IH Ha). reflexivity.
Qed.

Lemma split_nonempty (sep : ascii) (s : string) : split sep s <> [].
Proof.
  induction s as [|c s IH]; simpl; [discriminate|].
  destruct (Ascii.eqb c sep); [discriminate|].
  destruct (split sep s); [contradiction|discriminate].
Qed.

Lemma is_digit_digit_char (n : Z) : is_digit (digit_char (n mod 10)) = true.
Proof.
  pose proof (Z.mod_pos_bound n 10 ltac:(lia)) as H.
  assert (n mod 10 = 0 \/ n mod 10 = 1 \/ n mod 10 = 2 \/ n mod 10 = 3
          \/ n mod 10 = 4 \/ n mod 10 = 5 \/ n mod 10 = 6 \/ n mod 10 = 7
          \/ n mod 10 = 8 \/ n mod 10 = 9) as Hc by lia.
  repeat (destruct Hc as [->|Hc]; [reflexivity|]). rewrite Hc. reflexivity.
Qed.

Lemma digits_fixed_digits (w : nat) (n : Z) :
  all_chars is_digit (digits_fixed w n) = true.
Proof.
  revert n. induction w as [|w IH]; intros n; simpl; [reflexivity|].
  rewrite all_chars_app, IH. simpl. rewrite is_digit_digit_char. reflexivity.
Qed.

Lemma digits_fixed_date_chars (w : nat) (n : Z) :
  all_chars date_char (digits_fixed w n) = true.
Proof.
  apply all_chars_impl with (p := is_digit); [|apply digits_fixed_digits].
  intros c H. unfold date_char. rewrite H. reflexivity.
Qed.

Lemma iso_date_chars (t : Z) : all_chars date_char (iso_date t) = true.
Proof.
  unfold iso_date. destruct (civil_from_days (t / msPerDay)) as [[y m] d].
  unfold iso_year.
  destruct ((0 <=? y) && (y <=? 9999)); [|destruct (y <? 0)];
    rewrite ?all_chars_app, ?digits_fixed_date_chars; reflexivity.
Qed.

Lemma date_char_not_T (c : ascii) :
  date_char c = true -> negb (Ascii.eqb c "T") = true.
Proof.
  intros H. destruct (Ascii.eqb_spec c "T") as [->|_];
    [discriminate H|reflexivity].
Qed.

(** [toISOString().split('T')[0]] is the date of the timestamp. *)
Lemma first_segment_of_toISOString (t : Z) :
  nth 0 (split "T" (toISOString t)) "" = iso_date t.
Proof.
  unfold toISOString.
  change (iso_date t ++ "T" ++ iso_time t)
    with (iso_date t ++ String "T" (iso_time t)).
  rewrite split_first_segment; [reflexivity|].
  apply all_chars_impl with (p := date_char);
    [exact date_char_not_T | apply iso_date_chars].
Qed.

Ltac div_lia := Z.div_mod_to_equations; lia.

(** The month and the day of the month are in their ranges, so two digits
    write them. *)
Lemma civil_month_day (days : Z) :
  1 <= snd (fst (civil_from_days days)) <= 12
  /\ 1 <= snd (civil_from_days days) <= 31.
Proof.
  unfold civil_from_days.
  set (z := days + 719468).
  set (doe := z mod 146097).
  assert (0 <= doe < 146097) by (apply Z.mod_pos_bound; lia).
  set (yoe := (doe - doe / 1460 + doe / 36524 - doe / 146096) / 365).
  set (doy := doe - (365 * yoe + yoe / 4 - yoe / 100)).
  assert (0 <= yoe <= 399 /\ 0 <= doy <= 365) as [Hy Hd]
    by (subst yoe doy; div_lia).
  set (mp := (5 * doy + 2) / 153).
  assert (0 <= mp <= 11) by (subst mp; div_lia).
  cbn [fst snd].
  destruct (mp <? 10) eqn:E; [apply Z.ltb_lt in E | apply Z.ltb_ge in E];
    (split; [lia | subst mp; div_lia]).
Qed.

(** From 0000-01-01T00:00:00.000Z to 9999-12-31T23:59:59.999Z the year
    is within 0..9999. *)
Lemma civil_year_range (t : Z) :
  -62167219200000 <= t <= 253402300799999 ->
  0 <= fst (fst (civil_from_days (t / msPerDay))) <= 9999.
Proof.
  intros Ht. unfold civil_from_days, msPerDay.
  set (days := t / 86400000).
  assert (-719528 <= days <= 2932896) by (subst days; div_lia).
  set (z := days + 719468).
  set (era := z / 146097).
  set (doe := z mod 146097).
  assert (0 <= doe < 146097) by (apply Z.mod_pos_bound; lia).
  assert (z = 146097 * era + doe) by (apply Z.div_mod; lia).
  set (yoe := (doe - doe / 1460 + doe / 36524 - doe / 146096) / 365).
  set (doy := doe - (365 * yoe + yoe / 4 - yoe / 100)).
  assert (0 <= yoe <= 399 /\ 0 <= doy <= 365) as [Hy Hd]
    by (subst yoe doy; div_lia).
  set (mp := (5 * doy + 2) / 153).
  simpl fst.
  assert (-1 <= era <= 24) by lia.
  destruct (mp <? 10) eqn:E; [apply Z.ltb_lt in E | apply Z.ltb_ge in E].
  - destruct (mp + 3 <=? 2) eqn:E2;
      [apply Z.leb_le in E2; subst mp; div_lia|].
    subst mp yoe doy; div_lia.
  - destruct (mp - 9 <=? 2) eqn:E2;
      [|apply Z.leb_gt in E2; subst mp; div_lia].
    subst mp yoe doy; div_lia.
Qed.

Lemma leap_cases (y : Z) :
  (InLeapYear y = true /\ y mod 4 = 0 /\ (y mod 100 <> 0 \/ y mod 400 = 0))
  \/ (InLeapYear y = false
      /\ (y mod 4 <> 0 \/ (y mod 100 = 0 /\ y mod 400 <> 0))).
Proof.
  unfold InLeapYear.
  destruct (Z.eqb_spec (y mod 4) 0), (Z.eqb_spec (y mod 100) 0),
    (Z.eqb_spec (y mod 400) 0); simpl; intuition lia.
Qed.

(** [civil_from_days] gives the calendar date of the day: the day lies in
    the month [m] of the year [y], and is its [d]-th day. *)
Lemma civil_from_days_calendar (days : Z) :
  days
  = DayFromYear (fst (fst (civil_from_days days)))
    + DaysBeforeMonth (fst (fst (civil_from_days days)))
                      (snd (fst (civil_from_days days)))
    + (snd (civil_from_days days) - 1)
  /\ 1 <= snd (civil_from_days days)
  /\ days
     < (if snd (fst (civil_from_days days)) =? 12
        then DayFromYear (fst (fst (civil_from_days days)) + 1)
        else DayFromYear (fst (fst (civil_from_days days)))
             + DaysBeforeMonth (fst (fst (civil_from_days days)))
                               (snd (fst (civil_from_days days)) + 1)).
Proof.
  unfold civil_from_days.
  set (z := days + 719468).
  set (era := z / 146097).
  set (doe := z mod 146097).
  assert (0 <= doe < 146097) by (apply Z.mod_pos_bound; lia).
  assert (z = 146097 * era + doe) by (apply Z.div_mod; lia).
  set (yoe := (doe - doe / 1460 + doe / 36524 - doe / 146096) / 365).
  set (doy := doe - (365 * yoe + yoe / 4 - yoe / 100)).
  assert (0 <= yoe <= 399 /\ 0 <= doy <= 365) as [Hy Hd]
    by (subst yoe doy; div_lia).
  set (mp := (5 * doy + 2) / 153).
  assert (0 <= mp <= 11) by (subst mp; div_lia).
  cbn [fst snd].
  assert (153 * mp <= 5 * doy + 2 < 153 * mp + 153) as Hmp'
    by (subst mp; div_lia).
  assert (doe = 365 * yoe + yoe / 4 - yoe / 100 + doy) as Hdoe
    by (subst doy; lia).
  assert (doy <= 364
          \/ (doy = 365 /\ yoe mod 4 = 3 /\ (yoe mod 100 <> 99 \/ yoe = 399)))
    as Hleap by (subst doy yoe; div_lia).
  assert (days = z - 719468) as Hdays by (subst z; lia).
  clearbody mp doy yoe doe era z.
  assert (mp = 0 \/ mp = 1 \/ mp = 2 \/ mp = 3 \/ mp = 4 \/ mp = 5 \/ mp = 6
          \/ mp = 7 \/ mp = 8 \/ mp = 9 \/ mp = 10 \/ mp = 11) as Hmp by lia.
  unfold DaysBeforeMonth, DayFromYear.
  repeat (destruct Hmp as [Hmp|Hmp]); subst mp;
    cbn [Pos.add_carry Pos.eqb Z.ltb Z.leb Z.eqb Z.compare Pos.compare
         Pos.compare_cont Z.add Z.sub Z.opp Z.pos_sub Pos.add Pos.succ
         Z.succ_double Z.pred_double Z.double Pos.pred_double];
    try match goal with
        | |- context [InLeapYear ?y] =>
            destruct (leap_cases y) as [[-> Hl]|[-> Hl]]
        end;
    (repeat split; try lia; div_lia).
Qed.

Lemma iso_date_YYYY_MM_DD (t : Z) :
  -62167219200000 <= t <= 253402300799999 ->
  YYYY_MM_DD (iso_date t) = true.
Proof.
  intros Ht. pose proof (civil_year_range t Ht) as Hy.
  unfold iso_date. destruct (civil_from_days (t / msPerDay)) as [[y m] d].
  simpl in Hy. unfold iso_year.
  replace ((0 <=? y) && (y <=? 9999)) with true
    by (symmetry; apply andb_true_iff; split; apply Z.leb_le; lia).
  cbn [digits_fixed append YYYY_MM_DD].
  rewrite !is_digit_digit_char. reflexivity.
Qed.

(** C10: the date createInvoice stores is never taken from the form. The
    schema it validates with has neither the id nor the date field of
    the form schema, and for every form it accepts (the database writing
    the row) the stored date is the first 'T'-separated segment of the ISO
    timestamp of the server's clock, that is the clock's UTC date, the same
    for every other accepted form; it has the form YYYY-MM-DD (for a
    clock within the years 0000 to 9999, whose ISO year has four
    digits). *)
Theorem createInvoice_stores_server_date
    (allow_infinite : bool) (formData : FormData) (w : World) :
  accepts allow_infinite CreateInvoice (raw_form formData) = true ->
  db_fault w = None ->
  map fst FormSchema = ["id"; "customerId"; "amount"; "status"; "date"]
  /\ map fst CreateInvoice = ["customerId"; "amount"; "status"]
  /\ exists row,
      invoices (snd (createInvoice allow_infinite formData w))
      = (invoices w ++ [row])%list
      /\ Definitions.date row = nth 0 (split "T" (toISOString (clock w))) ""
      /\ Definitions.date row = iso_date (clock w)
      /\ (-62167219200000 <= clock w <= 253402300799999 ->
          YYYY_MM_DD (Definitions.date row) = true)
      /\ (forall other : FormData,
             accepts allow_infinite CreateInvoice (raw_form other) = true ->
             exists row',
               invoices (snd (createInvoice allow_infinite other w))
               = (invoices w ++ [row'])%list
               /\ Definitions.date row' = Definitions.date row).
Proof.
  intros Hok Hdb. split; [reflexivity|split; [reflexivity|]].
  rewrite createInvoice_accepted by exact Hok.
  unfold try_catch, sql. rewrite Hdb. simpl.
  eexists. split; [reflexivity|]. simpl.
  unfold today. rewrite first_segment_of_toISOString.
  repeat split.
  - apply iso_date_YYYY_MM_DD.
  - intros other Hother.
    rewrite createInvoice_accepted by exact Hother.
    unfold try_catch, sql. rewrite Hdb. simpl.
    eexists. split; [reflexivity|]. simpl.
    unfold today. apply first_segment_of_toISOString.
Qed.

Lemma createInvoice_stores_server_date_witness :
  map fst FormSchema = ["id"; "customerId"; "amount"; "status"; "date"]
  /\ map fst CreateInvoice = ["customerId"; "amount"; "status"]
  /\ exists row,
      invoices (snd (createInvoice true
                       dated_form
                       (world [] None)))
      = (invoices (world [] None) ++ [row])%list
      /\ Definitions.date row
         = nth 0 (split "T" (toISOString (clock (world [] None)))) ""
      /\ Definitions.date row = iso_date (clock (world [] None))
      /\ (-62167219200000 <= clock (world [] None) <= 253402300799999 ->
          YYYY_MM_DD (Definitions.date row) = true)
      /\ (forall other : FormData,
             accepts true CreateInvoice (raw_form other) = true ->
             exists row',
               invoices (snd (createInvoice true other (world [] None)))
               = (invoices (world [] None) ++ [row'])%list
               /\ Definitions.date row' = Definitions.date row).
Proof.
  apply (createInvoice_stores_server_date true
           dated_form
           (world [] None)); reflexivity.
Defined.

(** The form's own date is ignored: the row of 2026-11-02 holds that
    date. *)
Example form_date_is_ignored :
  map Definitions.date
      (invoices (snd (createInvoice true
                        dated_form
                        (world [] None))))
  = ["2026-11-02"].
Proof. vm_compute. reflexivity. Qed.

(** *** Pages of the invoices table *)

Section QueryFacts.
Variable amount_text : float -> string.
Variable invoices : list Definitions.Invoice.
Variable customers : list Data.Customer.

Lemma insert_by_date_length (r : Data.InvoiceRow) (l : list Data.InvoiceRow) :
  List.length (Data.insert_by_date r l) = S (List.length l).
Proof.
  induction l as [|h t IH]; simpl; [reflexivity|].
  destruct (String.leb (Data.date h) (Data.date r)); simpl;
    [reflexivity | rewrite IH; reflexivity].
Qed.

Lemma order_by_date_desc_length (l : list Data.InvoiceRow) :
  List.length (Data.order_by_date_desc l) = List.length l.
Proof.
  induction l as [|r l IH]; simpl; [reflexivity|].
  rewrite insert_by_date_length, IH. reflexivity.
Qed.

(** The ceiling of [count / 6]: the least number of sixes that cover
    [count]. *)
Lemma ceiling_of_sixths (count : nat) :
  (count <= 6 * ((count + 5) / 6)
   /\ forall k, count <= 6 * k -> (count + 5) / 6 <= k)%nat.
Proof.
  pose proof (Nat.div_mod_eq (count + 5) 6) as E.
  pose proof (Nat.mod_upper_bound (count + 5) 6 ltac:(discriminate)) as B.
  split; [lia|]. intros k Hk. lia.
Qed.

(** A page holds the matches from its offset on, six of them unless the
    matches run out. *)
Lemma page_length (query : string) (currentPage : positive) :
  List.length (Data.fetchFilteredInvoices amount_text invoices customers
                 query currentPage)
  = Nat.min 6
      (List.length (filter (Data.matches amount_text query)
                      (Data.joined invoices customers))
       - (Pos.to_nat currentPage - 1) * 6).
Proof.
  unfold Data.fetchFilteredInvoices, Data.page_size.
  rewrite length_firstn, length_skipn, order_by_date_desc_length.
  reflexivity.
Qed.

(** Every page up to the last holds an invoice, and no page after it
    does. *)
Lemma page_nonempty_iff (query : string) (currentPage : positive) :
  Data.fetchFilteredInvoices amount_text invoices customers query currentPage <> []
  <-> (Pos.to_nat currentPage
       <= Data.fetchInvoicesPages amount_text invoices customers query)%nat.
Proof.
  rewrite <- length_zero_iff_nil, page_length.
  unfold Data.fetchInvoicesPages, Data.page_size.
  set (count := List.length _).
  change (count + (6 - 1))%nat with (count + 5)%nat.
  pose proof (Nat.div_mod_eq (count + 5) 6) as E.
  pose proof (Nat.mod_upper_bound (count + 5) 6 ltac:(discriminate)) as B.
  pose proof (Pos2Nat.is_pos currentPage).
  lia.
Qed.

End QueryFacts.

(** C4: for every search query, every page fetchFilteredInvoices returns
    holds at most 6 invoices, and fetchInvoicesPages returns the ceiling
    of the number of matching invoices divided by 6: the least number of
    pages of 6 that hold them all. *)
Theorem page_size_and_page_count
    (amount_text : float -> string) (invoices : list Definitions.Invoice)
    (customers : list Data.Customer) (query : string) :
  (forall currentPage,
      List.length (Data.fetchFilteredInvoices amount_text invoices customers
                     query currentPage) <= 6)%nat
  /\ (List.length (filter (Data.matches amount_text query)
                     (Data.joined invoices customers))
      <= 6 * Data.fetchInvoicesPages amount_text invoices customers query)%nat
  /\ (forall k,
         List.length (filter (Data.matches amount_text query)
                        (Data.joined invoices customers)) <= 6 * k ->
         Data.fetchInvoicesPages amount_text invoices customers query <= k)%nat.
Proof.
  split.
  - intros currentPage. rewrite page_length. apply Nat.le_min_l.
  - unfold Data.fetchInvoicesPages, Data.page_size.
    change (6 - 1)%nat with 5%nat. apply ceiling_of_sixths.
Qed.

(** Twelve matching invoices make two pages of six. *)
Example twelve_matches_two_pages :
  Data.fetchInvoicesPages (fun _ => "")
    (map (fun n => invoice (String (ascii_of_nat (97 + n)) "") 100%float) (seq 0 12))
    [ {| Data.customer_id := "c1"; Data.name := "Lee"; Data.email := "lee@x.org";
         Data.image_url := "/lee.png" |} ]
    "LEE" = 2%nat
  /\ map (fun p =>
            List.length
              (Data.fetchFilteredInvoices (fun _ => "")
                 (map (fun n => invoice (String (ascii_of_nat (97 + n)) "") 100%float)
                      (seq 0 12))
                 [ {| Data.customer_id := "c1"; Data.name := "Lee";
                      Data.email := "lee@x.org"; Data.image_url := "/lee.png" |} ]
                 "LEE" p))
         [1%positive; 2%positive; 3%positive]
     = [6%nat; 6%nat; 0%nat].
Proof. vm_compute. split; reflexivity. Qed.

(** ** Further properties

    What the actions, the client components and the queries do beyond
    the statements above. *)

Import Terms.

(** *** The actions and the table *)

Section ActionFacts.
Variable allow_infinite : bool.
Variable formData : FormData.
Variable w : World.

(** Every run of an action is one of three: the form is rejected and the
    world is as it was; the database rejects the statement and the table
    is as it was; the statement is carried out. *)
Lemma createInvoice_table :
  invoices (snd (createInvoice allow_infinite formData w)) = invoices w
  \/ (accepts allow_infinite CreateInvoice (raw_form formData) = true
      /\ db_fault w = None
      /\ invoices (snd (createInvoice allow_infinite formData w))
         = (invoices w
            ++ [ {| Definitions.id := new_id w (inserted w);
                    Definitions.customer_id := string_of (get formData "customerId");
                    Definitions.amount := cents_of formData;
                    Definitions.status := string_of (get formData "status");
                    Definitions.date := today w |} ])%list).
Proof.
  destruct (accepts allow_infinite CreateInvoice (raw_form formData)) eqn:Hok.
  - rewrite createInvoice_accepted by exact Hok.
    unfold try_catch, sql. destruct (db_fault w) eqn:Hdb; simpl.
    + left. reflexivity.
    + right. auto.
  - left. unfold accepts in Hok.
    destruct (Zod.check allow_infinite CreateInvoice (raw_form formData))
      as [data|issues] eqn:E; [discriminate|].
    rewrite (createInvoice_rejected _ _ _ _ E). reflexivity.
Qed.

Lemma updateInvoice_table (id : string) :
  invoices (snd (updateInvoice allow_infinite id formData w)) = invoices w
  \/ (accepts allow_infinite CreateInvoice (raw_form formData) = true
      /\ db_fault w = None
      /\ invoices (snd (updateInvoice allow_infinite id formData w))
         = map (set_row (string_of (get formData "customerId"))
                        (cents_of formData)
                        (string_of (get formData "status")) id)
               (invoices w)).
Proof.
  destruct (accepts allow_infinite CreateInvoice (raw_form formData)) eqn:Hok.
  - rewrite updateInvoice_accepted by exact Hok.
    unfold try_catch, sql. destruct (db_fault w) eqn:Hdb; simpl.
    + left. reflexivity.
    + right. auto.
  - left. unfold accepts in Hok.
    destruct (Zod.check allow_infinite CreateInvoice (raw_form formData))
      as [data|issues] eqn:E; [discriminate|].
    rewrite (updateInvoice_rejected _ _ _ _ _ E). reflexivity.
Qed.

Lemma accepted_status :
  accepts allow_infinite CreateInvoice (raw_form formData) = true ->
  string_of (get formData "status") = "pending"
  \/ string_of (get formData "status") = "paid".
Proof.
  intros H. destruct (accepts_inl _ _ H) as (c & s & _ & Hs & Hv & _).
  rewrite Hs. exact Hv.
Qed.

End ActionFacts.

Lemma deleteInvoice_table (id : string) (w : World) :
  invoices (snd (deleteInvoice id w))
  = match db_fault w with
    | Some _ => invoices w
    | None => filter (fun r => negb (String.eqb (Definitions.id r) id)) (invoices w)
    end.
Proof.
  rewrite deleteInvoice_run. destruct (db_fault w); reflexivity.
Qed.

Lemma set_row_valid_status (customer_id : string) (cents : float)
    (status id : string) (r : Definitions.Invoice) :
  status = "pending" \/ status = "paid" ->
  valid_status r -> valid_status (set_row customer_id cents status id r).
Proof.
  intros Hs Hr. unfold set_row.
  destruct (String.eqb (Definitions.id r) id); [exact Hs|exact Hr].
Qed.

(** X1: the three actions keep the status of every row one of the two
    values: when every row of the table has the status 'pending' or 'paid',
    so has every row after createInvoice, after updateInvoice and after
    deleteInvoice, whatever the form, the identifier and the database
    do. *)
Theorem actions_keep_status_valid
    (allow_infinite : bool) (formData : FormData) (w : World) :
  Forall valid_status (invoices w) ->
  Forall valid_status (invoices (snd (createInvoice allow_infinite formData w)))
  /\ (forall id,
         Forall valid_status
           (invoices (snd (updateInvoice allow_infinite id formData w))))
  /\ (forall id, Forall valid_status (invoices (snd (deleteInvoice id w)))).
Proof.
  intros Hw. split; [|split].
  - destruct (createInvoice_table allow_infinite formData w)
      as [->|(Hok & _ & ->)]; [exact Hw|].
    apply Forall_app. split; [exact Hw|].
    constructor; [|constructor].
    exact (accepted_status _ _ Hok).
  - intros id.
    destruct (updateInvoice_table allow_infinite formData w id)
      as [->|(Hok & _ & ->)]; [exact Hw|].
    apply Forall_map. eapply Forall_impl; [|exact Hw].
    intros r. apply set_row_valid_status. exact (accepted_status _ _ Hok).
  - intros id. rewrite deleteInvoice_table.
    destruct (db_fault w); [exact Hw|].
    apply Forall_forall. intros r Hr. apply filter_In in Hr.
    rewrite Forall_forall in Hw. apply Hw, Hr.
Qed.

Lemma map_set_row_no_match (customer_id : string) (cents : float)
    (status id : string) (rows : list Definitions.Invoice) :
  (forall r, In r rows -> Definitions.id r <> id) ->
  map (set_row customer_id cents status id) rows = rows.
Proof.
  induction rows as [|r rows IH]; simpl; intros H; [reflexivity|].
  rewrite IH by (intros r' Hr'; apply H; right; exact Hr').
  unfold set_row.
  destruct (String.eqb_spec (Definitions.id r) id) as [E|_]; [|reflexivity].
  exfalso. exact (H r (or_introl eq_refl) E).
Qed.

Lemma actions_keep_status_valid_witness :
  Forall valid_status
    (invoices (snd (createInvoice true (form "c1" "12.34" "paid")
                      (world [invoice "a" 100%float] None))))
  /\ (forall id,
         Forall valid_status
           (invoices (snd (updateInvoice true id (form "c1" "12.34" "paid")
                             (world [invoice "a" 100%float] None)))))
  /\ (forall id,
         Forall valid_status
           (invoices (snd (deleteInvoice id (world [invoice "a" 100%float] None))))).
Proof.
  apply (actions_keep_status_valid true (form "c1" "12.34" "paid")
           (world [invoice "a" 100%float] None)).
  simpl. constructor; [left; reflexivity|constructor].
Defined.

(** X2: updateInvoice on an identifier that no invoice has changes no
    row and still ends in the redirect to '/dashboard/invoices' (the form
    being one the schema accepts); when the database carries out the
    statement nothing is logged either: the caller cannot tell that
    nothing was updated. *)
Theorem updateInvoice_of_missing_id
    (allow_infinite : bool) (id : string) (formData : FormData) (w : World) :
  accepts allow_infinite CreateInvoice (raw_form formData) = true ->
  (forall r, In r (invoices w) -> Definitions.id r <> id) ->
  invoices (snd (updateInvoice allow_infinite id formData w)) = invoices w
  /\ fst (updateInvoice allow_infinite id formData w)
     = Throw (NEXT_REDIRECT "/dashboard/invoices")
  /\ (db_fault w = None ->
      console (snd (updateInvoice allow_infinite id formData w)) = console w).
Proof.
  intros Hok Hno. split; [|split].
  - destruct (updateInvoice_table allow_infinite formData w id)
      as [->|(_ & _ & ->)]; [reflexivity|].
    apply map_set_row_no_match, Hno.
  - rewrite updateInvoice_accepted by exact Hok. reflexivity.
  - intros Hdb. rewrite updateInvoice_accepted by exact Hok.
    unfold try_catch, sql. rewrite Hdb. reflexivity.
Qed.

Lemma updateInvoice_of_missing_id_witness :
  invoices (snd (updateInvoice true "b" (form "c1" "12.34" "paid")
                   (world [invoice "a" 100%float] None)))
  = invoices (world [invoice "a" 100%float] None)
  /\ fst (updateInvoice true "b" (form "c1" "12.34" "paid")
            (world [invoice "a" 100%float] None))
     = Throw (NEXT_REDIRECT "/dashboard/invoices")
  /\ (db_fault (world [invoice "a" 100%float] None) = None ->
      console (snd (updateInvoice true "b" (form "c1" "12.34" "paid")
                      (world [invoice "a" 100%float] None)))
      = console (world [invoice "a" 100%float] None)).
Proof.
  apply (updateInvoice_of_missing_id true "b" (form "c1" "12.34" "paid")
           (world [invoice "a" 100%float] None)).
  - reflexivity.
  - simpl. intros r [<-|[]]. discriminate.
Defined.

Lemma set_row_id_date (customer_id : string) (cents : float)
    (status id : string) (r : Definitions.Invoice) :
  Definitions.id (set_row customer_id cents status id r) = Definitions.id r
  /\ Definitions.date (set_row customer_id cents status id r) = Definitions.date r.
Proof.
  unfold set_row. destruct (String.eqb (Definitions.id r) id); split; reflexivity.
Qed.

(** X3: updateInvoice never changes the identifier or the date of a
    row, nor the number or the order of the rows, whatever the form and
    the database do. *)
Theorem updateInvoice_keeps_ids_and_dates
    (allow_infinite : bool) (id : string) (formData : FormData) (w : World) :
  map Definitions.id (invoices (snd (updateInvoice allow_infinite id formData w)))
  = map Definitions.id (invoices w)
  /\ map Definitions.date
         (invoices (snd (updateInvoice allow_infinite id formData w)))
     = map Definitions.date (invoices w)
  /\ List.length (invoices (snd (updateInvoice allow_infinite id formData w)))
     = List.length (invoices w).
Proof.
  destruct (updateInvoice_table allow_infinite formData w id)
    as [->|(_ & _ & ->)]; [repeat split|].
  rewrite !map_map, length_map. repeat split; apply map_ext; intros r;
    apply set_row_id_date.
Qed.

Lemma set_row_twice (customer_id : string) (cents : float)
    (status id : string) (r : Definitions.Invoice) :
  set_row customer_id cents status id (set_row customer_id cents status id r)
  = set_row customer_id cents status id r.
Proof.
  unfold set_row at 2.
  destruct (String.eqb (Definitions.id r) id) eqn:E.
  - unfold set_row. simpl. rewrite E. reflexivity.
  - unfold set_row. rewrite E. reflexivity.
Qed.

(** X4: once the database has carried out the statement of a first
    updateInvoice, a second call with the same identifier and form leaves
    the table as the first call left it, whether or not the database
    carries out the second statement. *)
Theorem updateInvoice_twice
    (allow_infinite : bool) (id : string) (formData : FormData) (w : World)
    (fault : option string) :
  db_fault w = None ->
  invoices (snd (updateInvoice allow_infinite id formData
                   (with_fault fault
                      (snd (updateInvoice allow_infinite id formData w)))))
  = invoices (snd (updateInvoice allow_infinite id formData w)).
Proof.
  intros Hdb.
  destruct (accepts allow_infinite CreateInvoice (raw_form formData)) eqn:Hok.
  - rewrite !updateInvoice_accepted by exact Hok.
    unfold try_catch, sql. rewrite Hdb. simpl.
    destruct fault as [message|]; simpl; [reflexivity|].
    rewrite map_map. apply map_ext. intros r. apply set_row_twice.
  - unfold accepts in Hok.
    destruct (Zod.check allow_infinite CreateInvoice (raw_form formData))
      as [data|issues] eqn:E; [discriminate|].
    rewrite !(updateInvoice_rejected _ _ _ _ _ E). reflexivity.
Qed.

Lemma updateInvoice_twice_witness :
  invoices (snd (updateInvoice true "a" (form "c1" "12.34" "paid")
                   (with_fault (Some "timeout")
                      (snd (updateInvoice true "a" (form "c1" "12.34" "paid")
                              (world [invoice "a" 100%float; invoice "b" 100%float]
                                     None))))))
  = invoices (snd (updateInvoice true "a" (form "c1" "12.34" "paid")
                     (world [invoice "a" 100%float; invoice "b" 100%float] None))).
Proof.
  apply (updateInvoice_twice true "a" (form "c1" "12.34" "paid")
           (world [invoice "a" 100%float; invoice "b" 100%float] None)
           (Some "timeout")).
  reflexivity.
Defined.

(** X5: deleting the invoice createInvoice has just stored gives back
    the table as it was before, provided the database carries out both
    statements and the identifier it gave the new row was not in use. *)
Theorem createInvoice_then_deleteInvoice
    (allow_infinite : bool) (formData : FormData) (w : World) :
  accepts allow_infinite CreateInvoice (raw_form formData) = true ->
  db_fault w = None ->
  (forall r, In r (invoices w) -> Definitions.id r <> new_id w (inserted w)) ->
  invoices (snd (deleteInvoice (new_id w (inserted w))
                   (snd (createInvoice allow_infinite formData w))))
  = invoices w.
Proof.
  intros Hok Hdb Hfresh.
  rewrite deleteInvoice_table, createInvoice_accepted by exact Hok.
  unfold try_catch, sql. rewrite Hdb. simpl. rewrite Hdb.
  rewrite filter_app, (filter_no_match _ _ Hfresh). simpl.
  rewrite String.eqb_refl. simpl. apply app_nil_r.
Qed.

Lemma createInvoice_then_deleteInvoice_witness :
  invoices (snd (deleteInvoice
                   (new_id (world [invoice "b" 100%float] None)
                           (inserted (world [invoice "b" 100%float] None)))
                   (snd (createInvoice true (form "c1" "12.34" "paid")
                           (world [invoice "b" 100%float] None)))))
  = invoices (world [invoice "b" 100%float] None).
Proof.
  apply (createInvoice_then_deleteInvoice true (form "c1" "12.34" "paid")
           (world [invoice "b" 100%float] None)).
  - reflexivity.
  - reflexivity.
  - simpl. intros r [<-|[]]. discriminate.
Defined.

(** X6: when the database carries out its statement, deleteInvoice
    removes every row of the identifier and no other row: a row is in the
    table afterwards exactly when it was there before and has another
    identifier, and the table shrinks by the number of rows of the
    identifier. *)
Theorem deleteInvoice_removes_exactly_the_id (id : string) (w : World) :
  db_fault w = None ->
  (forall r, In r (invoices (snd (deleteInvoice id w)))
             <-> In r (invoices w) /\ Definitions.id r <> id)
  /\ List.length (invoices w)
     = (List.length (invoices (snd (deleteInvoice id w)))
        + List.length (filter (fun r => String.eqb (Definitions.id r) id)
                         (invoices w)))%nat.
Proof.
  intros Hdb. rewrite deleteInvoice_table, Hdb. split.
  - intros r. rewrite filter_In.
    destruct (String.eqb_spec (Definitions.id r) id); simpl; intuition congruence.
  - induction (invoices w) as [|r rows IH]; simpl; [reflexivity|].
    destruct (String.eqb (Definitions.id r) id); simpl; lia.
Qed.

Lemma deleteInvoice_removes_exactly_the_id_witness :
  (forall r,
      In r (invoices (snd (deleteInvoice "a"
                             (world [invoice "a" 100%float; invoice "b" 100%float]
                                    None))))
      <-> In r (invoices (world [invoice "a" 100%float; invoice "b" 100%float] None))
          /\ Definitions.id r <> "a")
  /\ List.length (invoices (world [invoice "a" 100%float; invoice "b" 100%float] None))
     = (List.length
          (invoices (snd (deleteInvoice "a"
                            (world [invoice "a" 100%float; invoice "b" 100%float]
                                   None))))
        + List.length
            (filter (fun r => String.eqb (Definitions.id r) "a")
               (invoices (world [invoice "a" 100%float; invoice "b" 100%float]
                                None))))%nat.
Proof.
  apply (deleteInvoice_removes_exactly_the_id "a"
           (world [invoice "a" 100%float; invoice "b" 100%float] None)).
  reflexivity.
Defined.

(** X7: a form whose amount is missing or is the empty text passes the
    schema (its customer being a string and its status one of the two
    values): the amount coerces to 0, and createInvoice stores an invoice
    of amount 0. *)
Theorem blank_amount_is_stored_as_zero
    (allow_infinite : bool) (formData : FormData) (w : World) (c : string) :
  get formData "amount" = VNull \/ get formData "amount" = VString "" ->
  get formData "customerId" = VString c ->
  get formData "status" = VString "pending"
  \/ get formData "status" = VString "paid" ->
  db_fault w = None ->
  accepts allow_infinite CreateInvoice (raw_form formData) = true
  /\ exists row,
      invoices (snd (createInvoice allow_infinite formData w))
      = (invoices w ++ [row])%list
      /\ Definitions.amount row = 0%float.
Proof.
  intros Ha Hc Hs Hdb.
  assert (Number (get formData "amount") = 0%float) as Hn
    by (destruct Ha as [->| ->]; reflexivity).
  assert (accepts allow_infinite CreateInvoice (raw_form formData) = true) as Hok.
  { unfold accepts, Zod.check. rewrite CreateInvoice_fields.
    cbn [Zod.check_fields Zod.check_value raw_form prop String.eqb Ascii.eqb
         Bool.eqb].
    rewrite Hc, Hn.
    replace (Zod.number_ok allow_infinite 0%float) with true
      by (destruct allow_infinite; reflexivity).
    destruct Hs as [-> | ->]; reflexivity. }
  split; [exact Hok|].
  rewrite createInvoice_accepted by exact Hok.
  unfold try_catch, sql. rewrite Hdb. simpl.
  eexists. split; [reflexivity|]. simpl. unfold cents_of. rewrite Hn.
  reflexivity.
Qed.

Lemma blank_amount_is_stored_as_zero_witness :
  accepts true CreateInvoice (raw_form (form "c1" "" "paid")) = true
  /\ exists row,
      invoices (snd (createInvoice true (form "c1" "" "paid") (world [] None)))
      = (invoices (world [] None) ++ [row])%list
      /\ Definitions.amount row = 0%float.
Proof.
  apply (blank_amount_is_stored_as_zero true (form "c1" "" "paid") (world [] None) "c1").
  - right. reflexivity.
  - reflexivity.
  - right. reflexivity.
  - reflexivity.
Defined.

(** X8: the form schema before its id and date are omitted rejects
    every object the actions build from a form, with an issue on id and
    an issue on date: only the schemas made by omit can accept a form. *)
Theorem FormSchema_rejects_every_form (allow_infinite : bool) (formData : FormData) :
  accepts allow_infinite FormSchema (raw_form formData) = false
  /\ exists issues,
      Zod.check allow_infinite FormSchema (raw_form formData) = inr issues
      /\ In {| Zod.path := "id"; Zod.code := Zod.invalid_type |} issues
      /\ In {| Zod.path := "date"; Zod.code := Zod.invalid_type |} issues.
Proof.
  unfold accepts, Zod.check, FormSchema.
  cbn [Zod.check_fields Zod.check_value raw_form prop String.eqb Ascii.eqb Bool.eqb].
  destruct (get formData "customerId") as [| |c| |];
    destruct (Zod.number_ok allow_infinite (Number (get formData "amount")));
    destruct (get formData "status") as [| |s| |];
    cbn -[Zod.mem];
    try destruct (Zod.mem s ["pending"; "paid"]);
    (split; [reflexivity|]); eexists; (split; [reflexivity|]);
    simpl; intuition.
Qed.

(** *** Query strings *)

Lemma get_delete (name k : string) (params : URLSearchParams.URLSearchParams) :
  URLSearchParams.get (URLSearchParams.delete name params) k
  = if String.eqb k name then VNull else URLSearchParams.get params k.
Proof.
  unfold URLSearchParams.delete.
  induction params as [|[n v] rest IH]; simpl.
  - destruct (String.eqb k name); reflexivity.
  - destruct (String.eqb_spec n name) as [->|Hn]; simpl.
    + rewrite IH. rewrite (String.eqb_sym name k).
      destruct (String.eqb k name); reflexivity.
    + rewrite IH. destruct (String.eqb_spec n k) as [->|Hk].
      * destruct (String.eqb_spec k name); [contradiction|reflexivity].
      * reflexivity.
Qed.

Lemma get_set (name value k : string) (params : URLSearchParams.URLSearchParams) :
  URLSearchParams.get (URLSearchParams.set name value params) k
  = if String.eqb k name then VString value else URLSearchParams.get params k.
Proof.
  induction params as [|[n v] rest IH]; simpl.
  - rewrite (String.eqb_sym name k). destruct (String.eqb k name); reflexivity.
  - destruct (String.eqb_spec n name) as [->|Hn]; simpl.
    + rewrite (String.eqb_sym name k).
      destruct (String.eqb_spec k name) as [->|Hk]; [reflexivity|].
      rewrite get_delete.
      destruct (String.eqb_spec k name); [contradiction|reflexivity].
    + rewrite IH. destruct (String.eqb_spec n k) as [->|Hk].
      * destruct (String.eqb_spec k name); [contradiction|reflexivity].
      * reflexivity.
Qed.

Lemma occurrences_delete (name k : string) (params : URLSearchParams.URLSearchParams) :
  occurrences k (URLSearchParams.delete name params)
  = if String.eqb k name then O else occurrences k params.
Proof.
  unfold occurrences, URLSearchParams.delete.
  induction params as [|[n v] rest IH]; simpl.
  - destruct (String.eqb k name); reflexivity.
  - destruct (String.eqb_spec n name) as [->|Hn]; simpl.
    + rewrite IH. rewrite (String.eqb_sym name k).
      destruct (String.eqb k name); reflexivity.
    + destruct (String.eqb_spec n k) as [->|Hk]; simpl; rewrite IH.
      * destruct (String.eqb_spec k name); [contradiction|reflexivity].
      * reflexivity.
Qed.

Lemma occurrences_set (name value k : string) (params : URLSearchParams.URLSearchParams) :
  occurrences k (URLSearchParams.set name value params)
  = if String.eqb k name then 1%nat else occurrences k params.
Proof.
  induction params as [|[n v] rest IH].
  - unfold occurrences. simpl. rewrite (String.eqb_sym name k).
    destruct (String.eqb k name); reflexivity.
  - simpl. destruct (String.eqb_spec n name) as [->|Hn].
    + unfold occurrences at 1. simpl filter.
      rewrite (String.eqb_sym name k).
      destruct (String.eqb_spec k name) as [->|Hk].
      * simpl. f_equal.
        pose proof (occurrences_delete name name rest) as H.
        rewrite String.eqb_refl in H. exact H.
      * pose proof (occurrences_delete name k rest) as H.
        destruct (String.eqb_spec k name); [contradiction|].
        unfold occurrences in *. simpl.
        destruct (String.eqb_spec name k); [congruence|]. exact H.
    + unfold occurrences in *. simpl.
      destruct (String.eqb_spec n k) as [->|Hk]; simpl; rewrite IH.
      * destruct (String.eqb_spec k name); [contradiction|reflexivity].
      * reflexivity.
Qed.

(** The pairs of the other names stay, in their order. *)
Lemma others_delete (name : string) (keep : string -> bool)
    (params : URLSearchParams.URLSearchParams) :
  keep name = false ->
  filter (fun pair => keep (fst pair)) (URLSearchParams.delete name params)
  = filter (fun pair => keep (fst pair)) params.
Proof.
  intros Hk. unfold URLSearchParams.delete.
  induction params as [|[n v] rest IH]; simpl; [reflexivity|].
  destruct (String.eqb_spec n name) as [->|Hn]; simpl.
  - rewrite Hk. exact IH.
  - rewrite IH. reflexivity.
Qed.

Lemma others_set (name value : string) (keep : string -> bool)
    (params : URLSearchParams.URLSearchParams) :
  keep name = false ->
  filter (fun pair => keep (fst pair)) (URLSearchParams.set name value params)
  = filter (fun pair => keep (fst pair)) params.
Proof.
  intros Hk.
  induction params as [|[n v] rest IH]; simpl.
  - rewrite Hk. reflexivity.
  - destruct (String.eqb_spec n name) as [->|Hn]; simpl.
    + rewrite Hk. apply others_delete, Hk.
    + rewrite IH. reflexivity.
Qed.

(** *** The urlencoded form read back *)

Lemma encode_byte_safe (c : ascii) :
  all_chars url_safe (URLSearchParams.encode_byte c) = true.
Proof. destruct c as [[] [] [] [] [] [] [] []]; reflexivity. Qed.

Lemma encode_safe (s : string) : all_chars url_safe (URLSearchParams.encode s) = true.
Proof.
  induction s as [|c s IH]; simpl; [reflexivity|].
  rewrite all_chars_app, encode_byte_safe, IH. reflexivity.
Qed.

Lemma decode_encode_byte (c : ascii) (r : string) :
  URLSearchParams.percent_decode
    (URLSearchParams.replace_plus (URLSearchParams.encode_byte c ++ r))
  = String c (URLSearchParams.percent_decode (URLSearchParams.replace_plus r)).
Proof. destruct c as [[] [] [] [] [] [] [] []]; reflexivity. Qed.

Lemma decode_encode (s : string) :
  URLSearchParams.percent_decode
    (URLSearchParams.replace_plus (URLSearchParams.encode s)) = s.
Proof.
  induction s as [|c s IH]; simpl; [reflexivity|].
  rewrite decode_encode_byte, IH. reflexivity.
Qed.

Lemma url_safe_not (c sep : ascii) :
  url_safe sep = false -> url_safe c = true -> negb (Ascii.eqb c sep) = true.
Proof.
  intros Hs Hc. destruct (Ascii.eqb_spec c sep) as [->|_]; [congruence|reflexivity].
Qed.

Lemma split_without_separator (sep : ascii) (s : string) :
  all_chars (fun c => negb (Ascii.eqb c sep)) s = true -> split sep s = [s].
Proof.
  induction s as [|c s IH]; simpl; intros H; [reflexivity|].
  apply andb_true_iff in H. destruct H as [Hc Hs].
  apply negb_true_iff in Hc. rewrite Hc, (IH Hs). reflexivity.
Qed.

Lemma split_pair_encoded (n v : string) :
  all_chars url_safe n = true ->
  URLSearchParams.split_pair (n ++ String "=" v) = (n, v).
Proof.
  induction n as [|c n IH]; simpl; intros H; [reflexivity|].
  apply andb_true_iff in H. destruct H as [Hc Hn].
  destruct (Z.eqb_spec (code c) 61) as [E|_].
  - exfalso. unfold url_safe, URLSearchParams.unreserved in Hc.
    rewrite E in Hc. discriminate Hc.
  - rewrite (IH Hn). reflexivity.
Qed.

Lemma encoded_pair_safe (pair : string * string) :
  all_chars (fun c => negb (Ascii.eqb c "&")) (encoded_pair pair) = true.
Proof.
  assert (forall s, all_chars (fun c => negb (Ascii.eqb c "&"))
                      (URLSearchParams.encode s) = true) as H.
  { intros s. apply all_chars_impl with (p := url_safe); [|apply encode_safe].
    intros c. apply url_safe_not. reflexivity. }
  unfold encoded_pair. rewrite !all_chars_app, !H. reflexivity.
Qed.

Lemma parse_encoded_pair (pair : string * string) :
  match encoded_pair pair with
  | EmptyString => []
  | _ =>
      let '(n, v) := URLSearchParams.split_pair (encoded_pair pair) in
      [(URLSearchParams.percent_decode (URLSearchParams.replace_plus n),
        URLSearchParams.percent_decode (URLSearchParams.replace_plus v))]
  end = [pair].
Proof.
  destruct pair as [n v].
  assert (encoded_pair (n, v) <> "") as Hne.
  { unfold encoded_pair. simpl.
    destruct (URLSearchParams.encode n); discriminate. }
  destruct (encoded_pair (n, v)) eqn:E; [contradiction|]. rewrite <- E.
  unfold encoded_pair. simpl fst. simpl snd.
  change (URLSearchParams.encode n ++ "=" ++ URLSearchParams.encode v)
    with (URLSearchParams.encode n ++ String "=" (URLSearchParams.encode v)).
  rewrite split_pair_encoded by apply encode_safe.
  rewrite !decode_encode. reflexivity.
Qed.

Lemma split_toString (pair : string * string)
    (params : URLSearchParams.URLSearchParams) :
  split "&" (URLSearchParams.toString (pair :: params))
  = map encoded_pair (pair :: params).
Proof.
  revert pair. unfold URLSearchParams.toString.
  induction params as [|q rest IH]; intros pair.
  - simpl. apply split_without_separator. apply encoded_pair_safe.
  - change (map encoded_pair (pair :: q :: rest))
      with (encoded_pair pair :: map encoded_pair (q :: rest)).
    rewrite <- IH.
    change (String.concat "&"
              (map (fun p => URLSearchParams.encode (fst p) ++ "="
                             ++ URLSearchParams.encode (snd p))
                   (pair :: q :: rest)))
      with (encoded_pair pair
            ++ String "&"
                 (String.concat "&"
                    (map (fun p => URLSearchParams.encode (fst p) ++ "="
                                   ++ URLSearchParams.encode (snd p))
                         (q :: rest)))).
    apply split_first_segment, encoded_pair_safe.
Qed.

(** Reading back what [toString] writes gives the parameters byte for
    byte. (The browser agrees on well-formed Unicode text; bytes that are
    not UTF-8 it reads back as U+FFFD.) *)
Lemma parse_toString (params : URLSearchParams.URLSearchParams) :
  URLSearchParams.parse (URLSearchParams.toString params) = params.
Proof.
  destruct params as [|pair rest]; [reflexivity|].
  unfold URLSearchParams.parse. rewrite split_toString.
  induction (pair :: rest) as [|p l IH]; [reflexivity|].
  cbn [map flat_map]. rewrite IH.
  rewrite (parse_encoded_pair p). reflexivity.
Qed.

(** *** The search box and the pagination links *)

Lemma get_handleSearch_params (searchParams : URLSearchParams.URLSearchParams)
    (term k : string) :
  URLSearchParams.get (Search.handleSearch_params searchParams term) k
  = if String.eqb k "page" then VString "1"
    else if String.eqb k "query"
         then (if String.eqb term "" then VNull else VString term)
         else URLSearchParams.get searchParams k.
Proof.
  unfold Search.handleSearch_params, truthy.
  destruct (String.eqb term ""); simpl negb; cbv iota.
  - rewrite get_delete, get_set.
    destruct (String.eqb_spec k "query") as [->|_]; [reflexivity|].
    reflexivity.
  - rewrite !get_set.
    destruct (String.eqb_spec k "query") as [->|_]; reflexivity.
Qed.

(** X9: whatever the current parameters, after handleSearch they hold
    page exactly once, with the value 1, and query exactly once with the
    term as its value, or not at all when the term is empty. *)
Theorem handleSearch_sets_page_1_and_the_query
    (searchParams : URLSearchParams.URLSearchParams) (term : string) :
  URLSearchParams.get (Search.handleSearch_params searchParams term) "page"
  = VString "1"
  /\ URLSearchParams.get (Search.handleSearch_params searchParams term) "query"
     = (if String.eqb term "" then VNull else VString term)
  /\ occurrences "page" (Search.handleSearch_params searchParams term) = 1%nat
  /\ occurrences "query" (Search.handleSearch_params searchParams term)
     = (if String.eqb term "" then 0%nat else 1%nat).
Proof.
  rewrite !get_handleSearch_params.
  unfold Search.handleSearch_params, truthy.
  destruct (String.eqb term ""); simpl negb; cbv iota;
    rewrite ?occurrences_delete, ?occurrences_set; repeat split.
Qed.

(** X10: handleSearch keeps every parameter other than page and query,
    with its value and in its place among the others. *)
Theorem handleSearch_keeps_the_other_parameters
    (searchParams : URLSearchParams.URLSearchParams) (term : string) :
  filter (fun pair => negb (String.eqb (fst pair) "page")
                      && negb (String.eqb (fst pair) "query"))
         (Search.handleSearch_params searchParams term)
  = filter (fun pair => negb (String.eqb (fst pair) "page")
                        && negb (String.eqb (fst pair) "query"))
           searchParams.
Proof.
  unfold Search.handleSearch_params.
  destruct (truthy (VString term)).
  - rewrite (others_set "query" term
               (fun n => negb (String.eqb n "page") && negb (String.eqb n "query")))
      by reflexivity.
    apply (others_set "page" "1"
             (fun n => negb (String.eqb n "page") && negb (String.eqb n "query"))).
    reflexivity.
  - rewrite (others_delete "query"
               (fun n => negb (String.eqb n "page") && negb (String.eqb n "query")))
      by reflexivity.
    apply (others_set "page" "1"
             (fun n => negb (String.eqb n "page") && negb (String.eqb n "query"))).
    reflexivity.
Qed.

(** X11: a later search overrides an earlier one: every parameter reads
    the same after two searches as after the second alone. *)
Theorem last_search_wins
    (searchParams : URLSearchParams.URLSearchParams) (first second name : string) :
  URLSearchParams.get
    (Search.handleSearch_params (Search.handleSearch_params searchParams first) second)
    name
  = URLSearchParams.get (Search.handleSearch_params searchParams second) name.
Proof.
  rewrite !get_handleSearch_params.
  destruct (String.eqb name "page"); [reflexivity|].
  destruct (String.eqb name "query"); reflexivity.
Qed.

Lemma Page_of_query_and_page_1 (term : string) :
  InvoicesPage.Page
    {| InvoicesPage.searchParams :=
         Some {| InvoicesPage.query := if String.eqb term "" then None else Some term;
                 InvoicesPage.page := Some "1" |} |}
  = {| InvoicesPage.table_query := VString term;
       InvoicesPage.table_currentPage := VNumber 1%float |}.
Proof.
  unfold InvoicesPage.Page. f_equal.
  destruct (String.eqb_spec term "") as [->|Hne]; [reflexivity|].
  simpl. unfold logical_or, truthy.
  destruct (String.eqb_spec term ""); [contradiction|reflexivity].
Qed.

(** X12: for current parameters and a term that are well-formed Unicode
    text, the URL handleSearch hands to the router is the pathname, a
    question mark and a query string that reads back as the parameters it
    built; the invoices page resolves it to the term as query and to 1 as
    current page. *)
Theorem search_url_shows_first_page_of_the_term
    (searchParams : URLSearchParams.URLSearchParams) (pathname term : string) :
  well_formed_params searchParams = true ->
  well_formed_utf8 term = true ->
  exists query_string,
    Search.handleSearch searchParams pathname term = pathname ++ "?" ++ query_string
    /\ URLSearchParams.parse query_string
       = Search.handleSearch_params searchParams term
    /\ InvoicesPage.Page (props_of (URLSearchParams.parse query_string))
       = {| InvoicesPage.table_query := VString term;
            InvoicesPage.table_currentPage := VNumber 1%float |}.
Proof.
  intros _ _.
  exists (URLSearchParams.toString (Search.handleSearch_params searchParams term)).
  split; [reflexivity|]. rewrite parse_toString. split; [reflexivity|].
  unfold props_of, param. rewrite !get_handleSearch_params.
  change (String.eqb "page" "page") with true.
  change (String.eqb "query" "page") with false.
  change (String.eqb "query" "query") with true. cbv iota.
  rewrite <- Page_of_query_and_page_1.
  destruct (String.eqb term ""); reflexivity.
Qed.

Lemma search_url_shows_first_page_of_the_term_witness :
  exists query_string,
    Search.handleSearch [("page", "3"); ("sort", "a=b")] "/dashboard/invoices"
      "Lee & co"
    = "/dashboard/invoices" ++ "?" ++ query_string
    /\ URLSearchParams.parse query_string
       = Search.handleSearch_params [("page", "3"); ("sort", "a=b")] "Lee & co"
    /\ InvoicesPage.Page (props_of (URLSearchParams.parse query_string))
       = {| InvoicesPage.table_query := VString "Lee & co";
            InvoicesPage.table_currentPage := VNumber 1%float |}.
Proof.
  apply (search_url_shows_first_page_of_the_term
           [("page", "3"); ("sort", "a=b")] "/dashboard/invoices" "Lee & co");
    reflexivity.
Defined.

Lemma get_cases (params : URLSearchParams.URLSearchParams) (name : string) :
  URLSearchParams.get params name = VNull
  \/ exists s, URLSearchParams.get params name = VString s.
Proof.
  induction params as [|[k v] rest IH]; simpl; [left; reflexivity|].
  destruct (String.eqb k name); [right; eauto|exact IH].
Qed.

(** X13: for a query string that gives page at most once, the
    pagination component and the invoices page compute the same current
    page (the component reads a missing page as null, the page as
    undefined; both end at 1). *)
Theorem pagination_and_page_agree (params : URLSearchParams.URLSearchParams) :
  (occurrences "page" params <= 1)%nat ->
  Pagination.currentPage params
  = InvoicesPage.table_currentPage (InvoicesPage.Page (props_of params)).
Proof.
  intros _. unfold Pagination.currentPage, InvoicesPage.Page, props_of, param.
  simpl InvoicesPage.table_currentPage.
  destruct (get_cases params "page") as [->|[s ->]]; reflexivity.
Qed.

Lemma pagination_and_page_agree_witness :
  Pagination.currentPage [("query", "lee"); ("page", "2")]
  = InvoicesPage.table_currentPage
      (InvoicesPage.Page (props_of [("query", "lee"); ("page", "2")])).
Proof.
  apply (pagination_and_page_agree [("query", "lee"); ("page", "2")]).
  vm_compute. lia.
Defined.

(** X14: the URL createPageURL builds is the pathname, a question mark
    and a query string that reads back with page exactly once, as the text
    of the page number, and with every other parameter (the search query
    among them) as it was. *)
Theorem createPageURL_sets_the_page_and_keeps_the_rest
    (Number_toString : float -> string)
    (searchParams : URLSearchParams.URLSearchParams) (pathname : string)
    (pageNumber : Pagination.PageNumber) :
  exists query_string,
    Pagination.createPageURL Number_toString searchParams pathname pageNumber
    = pathname ++ "?" ++ query_string
    /\ URLSearchParams.get (URLSearchParams.parse query_string) "page"
       = VString (Pagination.toString Number_toString pageNumber)
    /\ occurrences "page" (URLSearchParams.parse query_string) = 1%nat
    /\ (forall name,
           name <> "page" ->
           URLSearchParams.get (URLSearchParams.parse query_string) name
           = URLSearchParams.get searchParams name)
    /\ filter (fun pair => negb (String.eqb (fst pair) "page"))
              (URLSearchParams.parse query_string)
       = filter (fun pair => negb (String.eqb (fst pair) "page")) searchParams.
Proof.
  exists (URLSearchParams.toString
            (Pagination.createPageURL_params Number_toString searchParams pageNumber)).
  split; [reflexivity|]. rewrite parse_toString.
  unfold Pagination.createPageURL_params.
  rewrite get_set, occurrences_set. repeat split.
  - intros name Hne. rewrite get_set.
    destruct (String.eqb_spec name "page"); [contradiction|reflexivity].
  - apply (others_set "page" _ (fun n => negb (String.eqb n "page"))). reflexivity.
Qed.

(** *** The home page heading *)

(** X15: Header never shows an empty title: its heading holds the title
    when the title is truthy and 'Default title' otherwise (a title that
    is not passed or is the empty string among them), and the variant that
    calls createTitle renders the same. *)
Theorem Header_never_shows_an_empty_title (title : Value) :
  Home.Header_createTitle title = Home.Header title
  /\ exists children,
      Home.Header title = Home.h1 children
      /\ truthy children = true
      /\ (truthy title = true -> children = title)
      /\ (title = VUndefined \/ title = VString "" ->
          children = VString "Default title").
Proof.
  split; [reflexivity|]. unfold Home.Header.
  eexists. split; [reflexivity|].
  destruct (truthy title) eqn:E.
  - repeat split; auto. intros [->| ->]; discriminate E.
  - repeat split; auto. discriminate.
Qed.

(** *** Class names *)

(** X16: InvoiceStatus has the green class exactly for the status
    'paid' and the gray class exactly for 'pending'; for any other status
    it has the base classes alone. *)
Theorem InvoiceStatus_colour_follows_status (status : string) :
  (has_class "bg-green-500" (Styles.InvoiceStatus status) = true <-> status = "paid")
  /\ (has_class "bg-gray-100" (Styles.InvoiceStatus status) = true
      <-> status = "pending")
  /\ (status <> "paid" -> status <> "pending" ->
      Styles.InvoiceStatus status
      = "inline-flex items-center rounded-full px-2 py-1 text-sm").
Proof.
  unfold Styles.InvoiceStatus.
  destruct (String.eqb_spec status "pending") as [Hp|Hp];
    destruct (String.eqb_spec status "paid") as [Hd|Hd];
    vm_compute has_class; vm_compute Styles.clsx.
  - congruence.
  - repeat split; try discriminate; try reflexivity; intros; congruence.
  - repeat split; try discriminate; try reflexivity; intros; congruence.
  - repeat split; try discriminate; try reflexivity; intros; congruence.
Qed.

Lemma NavLinks_class (active : bool) :
  has_class "bg-sky-100"
    (Styles.clsx
       [ Styles.Classes "flex h-[48px] grow items-center justify-center gap-2 rounded-md bg-gray-50 p-3 text-sm font-medium hover:bg-sky-100 hover:text-blue-600 md:flex-none md:justify-start md:p-2 md:px-3";
         Styles.Toggles [ ("bg-sky-100 text-blue-600", active) ] ])
  = active.
Proof. destruct active; reflexivity. Qed.

Lemma active_NavLinks (links : list Styles.NavLink) (pathname : string) :
  map Styles.link_href (active_links (Styles.NavLinks links pathname))
  = filter (String.eqb pathname) (map Styles.href links).
Proof.
  induction links as [|link links IH]; [reflexivity|].
  unfold active_links in *.
  cbn [Styles.NavLinks map filter Styles.className].
  rewrite NavLinks_class.
  destruct (String.eqb pathname (Styles.href link));
    cbn [map Styles.link_href]; unfold Styles.NavLinks in IH; rewrite IH;
    reflexivity.
Qed.

Lemma filter_eqb_NoDup (x : string) (l : list string) :
  NoDup l -> (List.length (filter (String.eqb x) l) <= 1)%nat.
Proof.
  induction 1 as [|y l Hy Hl IH]; simpl; [lia|].
  destruct (String.eqb_spec x y) as [->|_]; [|exact IH].
  replace (filter (String.eqb y) l) with (@nil string); [simpl; lia|].
  symmetry. clear IH Hl. induction l as [|z l IH]; [reflexivity|]. simpl.
  destruct (String.eqb_spec y z) as [->|_].
  - exfalso. apply Hy. left. reflexivity.
  - apply IH. intros H. apply Hy. right. exact H.
Qed.

(** X17: for links whose targets are pairwise distinct, NavLinks shows
    at most one link as active, the one whose target is the pathname
    itself; when the pathname is no link's target (a nested route, for
    one) no link is active. *)
Theorem NavLinks_highlights_only_the_current_page
    (links : list Styles.NavLink) (pathname : string) :
  NoDup (map Styles.href links) ->
  (List.length (active_links (Styles.NavLinks links pathname)) <= 1)%nat
  /\ (forall l, In l (active_links (Styles.NavLinks links pathname)) ->
                Styles.link_href l = pathname)
  /\ (In pathname (map Styles.href links) <->
      active_links (Styles.NavLinks links pathname) <> []).
Proof.
  intros Hnd.
  pose proof (active_NavLinks links pathname) as E.
  split; [|split].
  - rewrite <- (length_map Styles.link_href), E. apply filter_eqb_NoDup, Hnd.
  - intros l Hl. apply (in_map Styles.link_href) in Hl. rewrite E in Hl.
    apply filter_In in Hl. destruct Hl as [_ Hl].
    apply String.eqb_eq in Hl. symmetry. exact Hl.
  - split.
    + intros Hin Hnil.
      assert (In pathname (filter (String.eqb pathname) (map Styles.href links))) as H
        by (apply filter_In; split; [exact Hin|apply String.eqb_refl]).
      rewrite <- E, Hnil in H. exact H.
    + intros Hne.
      destruct (active_links (Styles.NavLinks links pathname)) as [|l rest] eqn:Ea;
        [contradiction|].
      assert (In (Styles.link_href l)
                 (filter (String.eqb pathname) (map Styles.href links))) as H
        by (rewrite <- E; left; reflexivity).
      apply filter_In in H. destruct H as [Hin Heq].
      apply String.eqb_eq in Heq. rewrite Heq. exact Hin.
Qed.

Lemma NavLinks_highlights_only_the_current_page_witness :
  (List.length (active_links (Styles.NavLinks example_links "/dashboard/invoices/create"))
   <= 1)%nat
  /\ (forall l,
         In l (active_links (Styles.NavLinks example_links "/dashboard/invoices/create")) ->
         Styles.link_href l = "/dashboard/invoices/create")
  /\ (In "/dashboard/invoices/create" (map Styles.href example_links) <->
      active_links (Styles.NavLinks example_links "/dashboard/invoices/create") <> []).
Proof.
  apply (NavLinks_highlights_only_the_current_page example_links
           "/dashboard/invoices/create").
  simpl. repeat constructor; simpl; intuition discriminate.
Defined.

(** *** The edit page when a query fails *)

(** X18: when the customers query of the edit page rejects (with
    anything but the not-found signal) while the lookup resolves, the
    segment shows the error component with that error, also when the
    lookup found no invoice: not-found is reached only after both queries
    resolve. *)
Theorem failed_customers_query_shows_error
    (InvoiceForm CustomerField : Type)
    (fetchInvoiceById : string -> Action (option InvoiceForm))
    (fetchCustomers : Action (list CustomerField))
    (id : string) (invoice : option InvoiceForm) (error : Exn) (w w1 w2 : World) :
  fetchInvoiceById id w = (Ok invoice, w1) ->
  fetchCustomers w1 = (Throw error, w2) ->
  error <> NEXT_NOT_FOUND ->
  EditPage.Page fetchInvoiceById fetchCustomers id w = (Throw error, w2)
  /\ EditPage.render fetchInvoiceById fetchCustomers id w = EditPage.Error error.
Proof.
  intros H1 H2 Hne.
  assert (EditPage.Page fetchInvoiceById fetchCustomers id w = (Throw error, w2)) as HP.
  { unfold EditPage.Page, EditPage.Promise_all, bind. rewrite H1, H2. reflexivity. }
  split; [exact HP|]. unfold EditPage.render. rewrite HP. simpl.
  destruct error; try reflexivity. contradiction.
Qed.

Lemma failed_customers_query_shows_error_witness :
  EditPage.Page find_invoice failing_customers "b" (world [invoice "a" 100%float] None)
  = (Throw (Runtime.Error "Failed to fetch all customers."),
     world [invoice "a" 100%float] None)
  /\ EditPage.render find_invoice failing_customers "b"
       (world [invoice "a" 100%float] None)
     = EditPage.Error (Runtime.Error "Failed to fetch all customers.").
Proof.
  apply (failed_customers_query_shows_error Definitions.Invoice string
           find_invoice failing_customers "b" None
           (Runtime.Error "Failed to fetch all customers.")
           (world [invoice "a" 100%float] None)
           (world [invoice "a" 100%float] None)
           (world [invoice "a" 100%float] None)).
  - reflexivity.
  - reflexivity.
  - discriminate.
Defined.

(** *** The latest invoices *)

Lemma leb_trans (a b c : string) :
  String.leb a b = true -> String.leb b c = true -> String.leb a c = true.
Proof.
  unfold String.leb. revert b c.
  induction a as [|x a IH]; intros [|y b] [|z c]; simpl; try (intros; congruence);
    try reflexivity.
  unfold Ascii.compare.
  destruct (N.compare_spec (N_of_ascii x) (N_of_ascii y)) as [Exy|Lxy|Gxy];
    destruct (N.compare_spec (N_of_ascii y) (N_of_ascii z)) as [Eyz|Lyz|Gyz];
    destruct (N.compare_spec (N_of_ascii x) (N_of_ascii z)) as [Exz|Lxz|Gxz];
    try (intros; congruence); try lia.
  apply IH.
Qed.

Lemma insert_by_date_perm (r : Data.InvoiceRow) (l : list Data.InvoiceRow) :
  Permutation (Data.insert_by_date r l) (r :: l).
Proof.
  induction l as [|h t IH]; simpl; [reflexivity|].
  destruct (String.leb (Data.date h) (Data.date r)); [reflexivity|].
  rewrite IH. apply perm_swap.
Qed.

Lemma order_by_date_desc_perm (l : list Data.InvoiceRow) :
  Permutation (Data.order_by_date_desc l) l.
Proof.
  induction l as [|r l IH]; simpl; [reflexivity|].
  rewrite insert_by_date_perm, IH. reflexivity.
Qed.

Lemma insert_by_date_sorted (r : Data.InvoiceRow) (l : list Data.InvoiceRow) :
  StronglySorted not_before l -> StronglySorted not_before (Data.insert_by_date r l).
Proof.
  induction 1 as [|h t Ht IH Hh]; simpl.
  - repeat constructor.
  - destruct (String.leb (Data.date h) (Data.date r)) eqn:E.
    + constructor; [constructor; assumption|].
      constructor; [exact E|].
      eapply Forall_impl; [|exact Hh]. intros b Hb. unfold not_before in *.
      exact (leb_trans _ _ _ Hb E).
    + constructor; [exact IH|].
      apply (Permutation_Forall (Permutation_sym (insert_by_date_perm r t))).
      constructor; [|exact Hh]. unfold not_before.
      destruct (String.leb_total (Data.date r) (Data.date h)) as [H|H];
        [exact H|congruence].
Qed.

Lemma order_by_date_desc_sorted (l : list Data.InvoiceRow) :
  StronglySorted not_before (Data.order_by_date_desc l).
Proof.
  induction l as [|r l IH]; simpl; [constructor|].
  apply insert_by_date_sorted, IH.
Qed.

Lemma firstn_In (A : Type) (n : nat) (l : list A) (x : A) :
  In x (firstn n l) -> In x l.
Proof.
  intros H. rewrite <- (firstn_skipn n l). apply in_or_app. left. exact H.
Qed.

Lemma skipn_In (A : Type) (n : nat) (l : list A) (x : A) :
  In x (skipn n l) -> In x l.
Proof.
  intros H. rewrite <- (firstn_skipn n l). apply in_or_app. right. exact H.
Qed.

Lemma sorted_firstn_skipn (n : nat) (l : list Data.InvoiceRow) :
  StronglySorted not_before l ->
  StronglySorted not_before (firstn n l)
  /\ forall a b, In a (firstn n l) -> In b (skipn n l) -> not_before a b.
Proof.
  intros H. revert n. induction H as [|h t Ht IH Hh]; intros n.
  - rewrite firstn_nil. split; [constructor|]. intros a b Ha. destruct Ha.
  - destruct n as [|n]; simpl.
    + split; [constructor|]. intros a b Ha. destruct Ha.
    + destruct (IH n) as [Hs Hc]. split.
      * constructor; [exact Hs|].
        rewrite Forall_forall in *. intros b Hb. apply Hh.
        exact (firstn_In _ _ _ _ Hb).
      * intros a b [<-|Ha] Hb.
        -- rewrite Forall_forall in Hh. apply Hh. exact (skipn_In _ _ _ _ Hb).
        -- exact (Hc a b Ha Hb).
Qed.

Lemma joined_has_customer (invoices : list Definitions.Invoice)
    (customers : list Data.Customer) (r : Data.InvoiceRow) :
  In r (Data.joined invoices customers) ->
  exists i c,
    In i invoices /\ In c customers
    /\ Data.customer_id c = Definitions.customer_id i
    /\ Data.id r = Definitions.id i
    /\ Data.date r = Definitions.date i
    /\ Data.amount r = Definitions.amount i
    /\ Data.customer_name r = Data.name c.
Proof.
  unfold Data.joined. rewrite in_flat_map. intros (i & Hi & Hr).
  apply in_map_iff in Hr. destruct Hr as (c & <- & Hc).
  apply filter_In in Hc. destruct Hc as [Hc E]. apply String.eqb_eq in E.
  exists i, c. simpl. repeat split; auto.
Qed.

(** X19: the latest-invoices query returns 5 rows, or all the joined
    rows when there are fewer; the rows it takes are rows of the join, in
    descending order of date, and no row it leaves out is more recent than
    a row it takes. *)
Theorem latest_invoices_are_the_five_most_recent
    (invoices : list Definitions.Invoice) (customers : list Data.Customer) :
  List.length (LatestInvoices.latest_invoices invoices customers)
  = Nat.min 5 (List.length (Data.joined invoices customers))
  /\ StronglySorted not_before (LatestInvoices.latest_rows invoices customers)
  /\ (forall r, In r (LatestInvoices.latest_rows invoices customers) ->
                In r (Data.joined invoices customers))
  /\ exists rest,
      Permutation (LatestInvoices.latest_rows invoices customers ++ rest)
                  (Data.joined invoices customers)
      /\ forall a b,
          In a (LatestInvoices.latest_rows invoices customers) ->
          In b rest -> not_before a b.
Proof.
  unfold LatestInvoices.latest_invoices, LatestInvoices.latest_rows.
  pose proof (order_by_date_desc_sorted (Data.joined invoices customers)) as Hs.
  pose proof (order_by_date_desc_perm (Data.joined invoices customers)) as Hp.
  destruct (sorted_firstn_skipn 5 _ Hs) as [Hf Hc].
  split; [|split; [exact Hf|split]].
  - rewrite length_map, length_firstn, (Permutation_length Hp). reflexivity.
  - intros r Hr. apply (Permutation_in _ Hp). exact (firstn_In _ _ _ _ Hr).
  - exists (skipn 5 (Data.order_by_date_desc (Data.joined invoices customers))).
    split; [|exact Hc]. rewrite firstn_skipn. exact Hp.
Qed.

(** X20: every row of the latest-invoices query is an invoice joined
    with a customer whose identifier is the invoice's customer_id: an
    invoice whose customer does not exist is never listed. *)
Theorem invoice_without_customer_is_never_listed
    (invoices : list Definitions.Invoice) (customers : list Data.Customer) :
  Forall
    (fun r =>
       exists i c,
         In i invoices /\ In c customers
         /\ Data.customer_id c = Definitions.customer_id i
         /\ Data.id r = Definitions.id i)
    (LatestInvoices.latest_rows invoices customers).
Proof.
  apply Forall_forall. intros r Hr. unfold LatestInvoices.latest_rows in Hr.
  apply firstn_In in Hr.
  apply (Permutation_in _ (order_by_date_desc_perm _)) in Hr.
  destruct (joined_has_customer _ _ _ Hr) as (i & c & Hi & Hc & E & Eid & _).
  exists i, c. auto.
Qed.

(** X21: for current parameters and a term that are well-formed Unicode
    text, after handleSearch the search box rendered from the new URL
    shows the term as its default value, and nothing (undefined) when the
    term is empty. *)
Theorem search_box_shows_the_term
    (searchParams : URLSearchParams.URLSearchParams) (pathname term : string) :
  well_formed_params searchParams = true ->
  well_formed_utf8 term = true ->
  exists query_string,
    Search.handleSearch searchParams pathname term = pathname ++ "?" ++ query_string
    /\ Search.defaultValue (URLSearchParams.parse query_string)
       = (if String.eqb term "" then VUndefined else VString term).
Proof.
  intros _ _.
  exists (URLSearchParams.toString (Search.handleSearch_params searchParams term)).
  split; [reflexivity|]. rewrite parse_toString.
  unfold Search.defaultValue. rewrite get_handleSearch_params.
  change (String.eqb "query" "page") with false.
  change (String.eqb "query" "query") with true. cbv iota.
  destruct (String.eqb term ""); reflexivity.
Qed.

Lemma search_box_shows_the_term_witness :
  exists query_string,
    Search.handleSearch [("page", "3"); ("sort", "a=b")] "/dashboard/invoices"
      "Lee & co"
    = "/dashboard/invoices" ++ "?" ++ query_string
    /\ Search.defaultValue (URLSearchParams.parse query_string)
       = (if String.eqb "Lee & co" "" then VUndefined else VString "Lee & co").
Proof.
  apply (search_box_shows_the_term
           [("page", "3"); ("sort", "a=b")] "/dashboard/invoices" "Lee & co");
    reflexivity.
Defined.
